(** * Browser Agent API: session lifecycle and query orchestration

    A shallow embedding of [app/browser_controller.py] (class
    [BrowserController]) and of the request handlers of [app/main.py],
    followed by the properties of the specification that are checked on it.

    The external collaborators (the Browserbase SDK, the browser-use agent,
    the summarising LLM and the websocket) are not part of the repository.
    Each of their calls is an oracle: the embedding receives, for every
    request, what each call answers or the message of the exception it
    raises, and is otherwise the code of the repository. *)

From Stdlib Require Import String Ascii ZArith List Bool Lia.
From stdpp Require Import base option gmap strings list fin_maps.



(** * Python values *)

(** The values the duck-typed parts of the code handle: the attributes of
    an agent action, the summariser's [content], the candidate answer. *)
#[warnings="-register-all"]
Inductive pyval :=
  | VNone
  | VBool (b : bool)
  | VInt (n : Z)
  | VStr (s : string)
  | VList (l : list pyval)
  | VObj (repr : string).

(** Python truthiness, as [if x:] / [not x] / [x and y] use it. *)
Definition truthy (v : pyval) : bool :=
  match v with
  | VNone => false
  | VBool b => b
  | VInt n => negb (n =? 0)%Z
  | VStr s => negb (s =? "")%string
  | VList l => match l with [] => false | _ => true end
  | VObj _ => true
  end.

(** [isinstance(v, str)] *)
Definition isinstance_str (v : pyval) : bool :=
  match v with VStr _ => true | _ => false end.

(** [s.startswith(p)] *)
Definition startswith (s p : string) : bool := String.prefix p s.

(** [p in s] for two strings. *)
Fixpoint contains (p s : string) : bool :=
  String.prefix p s ||
  match s with
  | EmptyString => false
  | String _ s' => contains p s'
  end.

(** [getattr(obj, name, default)] on an attribute that may be missing. *)
Definition getattr {A} (attr : option A) (default : A) : A :=
  match attr with Some v => v | None => default end.

(** * Exceptions and the execution monad *)

(** The outcome of a call that may raise; an exception is its [str(e)]. *)
Inductive outcome (A : Type) :=
  | Ok (a : A)
  | Raise (e : string).
Arguments Ok {A} a.
Arguments Raise {A} e.

(** A method body: it mutates [self] (or writes to a channel) and returns or
    raises.  What was mutated before an exception stays mutated. *)
Definition Exec (S A : Type) : Type := S -> outcome A * S.

#[export] Instance Exec_ret {S} : MRet (Exec S) :=
  fun A a s => (Ok a, s).

#[export] Instance Exec_bind {S} : MBind (Exec S) :=
  fun A B f m s =>
    match m s with
    | (Ok a, s') => f a s'
    | (Raise e, s') => (Raise e, s')
    end.

Definition raise {S A} (e : string) : Exec S A := fun s => (Raise e, s).

(** [try: body except Exception as e: handler(e)] *)
Definition try_except {S A} (body : Exec S A) (handler : string -> Exec S A)
  : Exec S A :=
  fun s =>
    match body s with
    | (Ok a, s') => (Ok a, s')
    | (Raise e, s') => handler e s'
    end.

(** A call to an external collaborator, answered by its oracle. *)
Definition call {S A} (r : outcome A) : Exec S A := fun s => (r, s).

Definition get {S} : Exec S S := fun s => (Ok s, s).
Definition modify {S} (f : S -> S) : Exec S unit := fun s => (Ok tt, f s).

(** * The remote browser provider (Browserbase SDK) *)

Record remote_session := {
  id : string;
  connect_url : string;
}.

Record debug_info := {
  debuggerFullscreenUrl : string;
}.

(** What [self.bb.sessions] answers during one request. *)
Record Browserbase := {
  sessions_create : outcome remote_session;
  sessions_debug : string -> outcome debug_info;
  sessions_list : outcome (list remote_session);
  sessions_retrieve : string -> outcome remote_session;
  sessions_delete : string -> outcome unit;
}.

(** * BrowserController *)

(** The attributes of [self].  [None] is Python's [None], except for
    [connection_url], which [__init__] does not create: there [None] is the
    missing attribute.  [bb] and [project_id] are the provider handle (the
    oracle above), [dimensions] is a constant, and [agent] and
    [current_task] are only ever assigned [None]. *)
Record BrowserController := {
  user_id : string;
  session_id : option string;
  session : option remote_session;
  current_url : option string;
  streaming : bool;
  history : list string;
  debug_links : option debug_info;
  steps : list string;
  connection_url : option string;
}.

Definition set_session_id (v : option string) (c : BrowserController) :=
  {| user_id := user_id c; session_id := v; session := session c;
     current_url := current_url c; streaming := streaming c;
     history := history c; debug_links := debug_links c; steps := steps c;
     connection_url := connection_url c |}.

Definition set_session (v : option remote_session) (c : BrowserController) :=
  {| user_id := user_id c; session_id := session_id c; session := v;
     current_url := current_url c; streaming := streaming c;
     history := history c; debug_links := debug_links c; steps := steps c;
     connection_url := connection_url c |}.

Definition set_current_url (v : option string) (c : BrowserController) :=
  {| user_id := user_id c; session_id := session_id c; session := session c;
     current_url := v; streaming := streaming c;
     history := history c; debug_links := debug_links c; steps := steps c;
     connection_url := connection_url c |}.

Definition set_streaming (v : bool) (c : BrowserController) :=
  {| user_id := user_id c; session_id := session_id c; session := session c;
     current_url := current_url c; streaming := v;
     history := history c; debug_links := debug_links c; steps := steps c;
     connection_url := connection_url c |}.

Definition set_history (v : list string) (c : BrowserController) :=
  {| user_id := user_id c; session_id := session_id c; session := session c;
     current_url := current_url c; streaming := streaming c;
     history := v; debug_links := debug_links c; steps := steps c;
     connection_url := connection_url c |}.

Definition set_debug_links (v : option debug_info) (c : BrowserController) :=
  {| user_id := user_id c; session_id := session_id c; session := session c;
     current_url := current_url c; streaming := streaming c;
     history := history c; debug_links := v; steps := steps c;
     connection_url := connection_url c |}.

Definition set_steps (v : list string) (c : BrowserController) :=
  {| user_id := user_id c; session_id := session_id c; session := session c;
     current_url := current_url c; streaming := streaming c;
     history := history c; debug_links := debug_links c; steps := v;
     connection_url := connection_url c |}.

Definition set_connection_url (v : option string) (c : BrowserController) :=
  {| user_id := user_id c; session_id := session_id c; session := session c;
     current_url := current_url c; streaming := streaming c;
     history := history c; debug_links := debug_links c; steps := steps c;
     connection_url := v |}.

(** [self.steps.append(step)] *)
Definition steps_append (step : string) : Exec BrowserController unit :=
  modify (fun c => set_steps (steps c ++ [step]) c).

(** [BrowserController.__init__] *)
Definition init (uid : string) : BrowserController :=
  {| user_id := uid; session_id := None; session := None;
     current_url := None; streaming := false; history := [];
     debug_links := None; steps := []; connection_url := None |}.

(** ** start_session *)

(** The dict [start_session] returns. *)
Inductive start_result :=
  | Connected (session_id : string) (current_url : string)
              (live_view_url : string)
  | StartError (error : string).

Definition limit_message : string :=
  "You've exceeded your max concurrent sessions limit".

Definition google : string := "https://www.google.com".

(** Lines 64-88: the provider grants a new session. *)
Definition start_new (bb : Browserbase) : Exec BrowserController start_result :=
  s ← call (sessions_create bb);
  modify (set_session (Some s));;
  modify (set_session_id (Some (id s)));;
  links ← call (sessions_debug bb (id s));
  modify (set_debug_links (Some links));;
  modify (set_current_url (Some google));;
  modify (set_connection_url (Some (connect_url s)));;
  steps_append "Browser session initialized";;
  steps_append ("Starting with " +:+ google);;
  mret (Connected (id s) google (debuggerFullscreenUrl links)).

(** Lines 90-122: the handler of whatever the block above raised. *)
Definition start_reuse (bb : Browserbase) (error_message : string)
  : Exec BrowserController start_result :=
  if contains limit_message error_message then
    sessions ← call (sessions_list bb);
    match sessions with
    | first :: _ =>
        s ← call (sessions_retrieve bb (id first));
        modify (set_session (Some s));;
        modify (set_session_id (Some (id s)));;
        links ← call (sessions_debug bb (id s));
        modify (set_debug_links (Some links));;
        modify (set_current_url (Some google));;
        modify (set_connection_url (Some (connect_url s)));;
        steps_append "Browser session reused";;
        steps_append ("Starting with " +:+ google);;
        mret (Connected (id s) google (debuggerFullscreenUrl links))
    | [] => raise error_message
    end
  else raise error_message.

(** [start_session]: the two nested [try] blocks; the outer handler turns
    whatever is still raised into the error dict. *)
Definition start_session (bb : Browserbase)
  : Exec BrowserController start_result :=
  try_except
    (try_except (start_new bb) (start_reuse bb))
    (fun error_message => mret (StartError error_message)).

(** ** stop_session *)

(** Lines 408-411 and again 415-418 ([agent] is [None] throughout). *)
Definition clear_identity : Exec BrowserController unit :=
  modify (set_session_id None);;
  modify (set_session None);;
  modify (set_streaming false).

(** [stop_session] *)
Definition stop_session (bb : Browserbase) : Exec BrowserController unit :=
  try_except
    (c ← get;
     match session_id c with
     | Some sid =>
         if negb (sid =? "")%string then
           call (sessions_delete bb sid);;
           clear_identity
         else mret tt
     | None => mret tt
     end)
    (fun _ => clear_identity).

(** ** process_query: the agent's return value *)

(** One entry of the action trace.  Every attribute is probed with
    [getattr]/[hasattr], so each may be missing ([None] here). *)
Record action := {
  is_done : option pyval;
  success : option pyval;
  extracted_content : option pyval;
}.

(** What [agent.run()] returns; [all_results] may be missing. *)
Record agent_history := {
  all_results : option (list action);
}.

(** What [summary_llm.invoke] returns. *)
Record llm_message := {
  content : option pyval;
  message_str : string;
}.

Definition could_not_format : string :=
  "I found information related to your query but had trouble formatting the results.".

(** Lines 225-233: direct extraction after [summary_llm.invoke] raised. *)
Definition extract_after_sync_error (result : agent_history) : pyval :=
  match all_results result with
  | Some ((_ :: _) as results) =>
      match List.find
              (fun a => truthy (getattr (is_done a) (VBool false))
                        && truthy (getattr (success a) (VBool true)))
              (rev results) with
      | Some a => getattr (extracted_content a) (VStr "")
      | None =>
          match last results with
          | Some a => getattr (extracted_content a) (VStr "")
          | None => VStr ""
          end
      end
  | _ => VStr could_not_format
  end.

(** [obj.extracted_content], which raises an [AttributeError] when the
    attribute is missing (its message, less the name of the object's
    class). *)
Definition dot_extracted_content (a : action) : outcome pyval :=
  match extracted_content a with
  | Some v => Ok v
  | None => Raise "object has no attribute 'extracted_content'"
  end.

(** Lines 239-250: direct extraction after building or sending the summary
    request raised. *)
Definition extract_after_summary_error (query : string) (result : agent_history)
  : outcome pyval :=
  match all_results result with
  | Some results =>
      let done_actions :=
        List.filter
          (fun a => truthy (getattr (is_done a) (VBool false))
                    && truthy (getattr (success a) (VBool false)))
          results in
      match last done_actions with
      | Some a => dot_extracted_content a
      | None =>
          match last results with
          | Some a => dot_extracted_content a
          | None => Ok (VStr "")
          end
      end
  | None =>
      Ok (VStr ("Based on my web search, I found information related to your query about "
                +:+ query))
  end.

Definition apology (query : string) : string :=
  "I searched for information about " +:+ query
  +:+ ", but encountered an issue formatting the results.".

(** Lines 270-272: the final sanitization. *)
Definition sanitize (query : string) (final_text_result : pyval) : pyval :=
  match final_text_result with
  | VStr s =>
      if startswith s "AgentHistoryList" || negb (truthy (VStr s))
      then VStr (apology query)
      else VStr s
  | _ => VStr (apology query)
  end.

(** ** process_query *)

(** What the collaborators answer during one query. *)
Record query_env := {
  (* lines 147-148: the two ChatOpenAI(...) *)
  new_llms : outcome unit;
  (* lines 154-175: BrowserConfig, Browser, BrowserContextConfig, Agent *)
  new_agent : outcome unit;
  (* lines 182-189: await agent.run(), and printing what it returned *)
  agent_run : outcome agent_history;
  (* lines 194-216: the prompt with str(result), ChatOpenAI, HumanMessage *)
  new_summary_message : outcome unit;
  (* line 219: summary_llm.invoke([message]) *)
  summary_invoke : outcome llm_message;
  (* line 256: browser.current_url, None when the attribute is missing *)
  browser_current_url : option string;
  (* line 267: await browser.close() *)
  browser_close : outcome unit;
}.

(** The dict [process_query] returns, by its ["status"]. *)
Inductive query_result :=
  | Success (aiResponse : pyval) (current_url : option string)
            (steps : list string)
  | PartialSuccess (aiResponse : string) (current_url : option string)
                   (steps : list string)
  | QueryError (error : string) (aiResponse : string) (steps : list string).

(** Lines 260-262: [self.history.append(url)] and the cut to the last ten. *)
Definition history_append (url : string) (history : list string) : list string :=
  let history := history ++ [url] in
  if 10 <? length history then drop (length history - 10) history
  else history.

(** Lines 256-264. *)
Definition update_current_url (env : query_env) : Exec BrowserController unit :=
  match browser_current_url env with
  | Some url =>
      if negb (url =? "")%string then
        modify (set_current_url (Some url));;
        modify (fun c => set_history (history_append url (history c)) c);;
        steps_append ("Navigated to " +:+ url)
      else mret tt
  | None => mret tt
  end.

(** Lines 192-250: the answer before sanitization. *)
Definition summarize (env : query_env) (query : string) (result : agent_history)
  : Exec BrowserController pyval :=
  try_except
    (call (new_summary_message env);;
     try_except
       (llm_response ← call (summary_invoke env);
        mret (getattr (content llm_response) (VStr (message_str llm_response))))
       (fun sync_error => mret (extract_after_sync_error result)))
    (fun summarization_error => call (extract_after_summary_error query result)).

Definition browser_apology (error_message : string) : string :=
  ("I encountered an issue while trying to browse the web: " +:+ error_message)
  +:+ ". I'm unable to access web content for this query right now.".

(** [process_query].  The [except] of lines 302-309 guards two string
    concatenations and a dict display, which do not raise: it is left out. *)
Definition process_query (env : query_env) (query : string)
  : Exec BrowserController query_result :=
  try_except
    (steps_append ("Processing query: " +:+ query);;
     call (new_llms env);;
     self ← get;
     match connection_url self with
     | None =>
         raise "'BrowserController' object has no attribute 'connection_url'"
     | Some _ =>
         try_except
           (call (new_agent env);;
            steps_append "Browser agent initialized";;
            steps_append "Executing query...";;
            result ← call (agent_run env);
            final_text_result ← summarize env query result;
            steps_append "Query execution completed";;
            update_current_url env;;
            call (browser_close env);;
            self ← get;
            mret (Success (sanitize query final_text_result)
                          (current_url self) (steps self)))
           (fun error_message =>
              steps_append ("Browser error: " +:+ error_message);;
              self ← get;
              mret (PartialSuccess (browser_apology error_message)
                                   (current_url self) (steps self)))
     end)
    (fun error_message =>
       steps_append ("Error: " +:+ error_message);;
       self ← get;
       mret (QueryError error_message
               ("I encountered an error while processing your request: "
                +:+ error_message)
               (steps self))).

(** ** stream_browser *)

(** The messages [websocket.send_json] is given, by their ["type"]. *)
Inductive ws_message :=
  | StatusMsg (status : string) (session_id : option string)
  | UrlMsg (data : string)
  | StepsMsg (data : list string)
  | LiveViewUrlMsg (data : string)
  | ErrorMsg (message : string).

(** [await websocket.send_json(m)]: the state is what the listener has
    received so far. *)
Definition send_json (websocket : ws_message -> outcome unit) (m : ws_message)
  : Exec (list ws_message) unit :=
  fun sent =>
    match websocket m with
    | Ok _ => (Ok tt, sent ++ [m])
    | Raise e => (Raise e, sent)
    end.

(** [self.current_url or "about:blank"] *)
Definition url_or_blank (url : option string) : string :=
  match url with
  | Some u => if negb (u =? "")%string then u else "about:blank"
  | None => "about:blank"
  end.

(** The relay shares [self] with the handlers that run between its
    suspension points.  An observation is [self] as one pass of the relay
    finds it, [self.steps] as it is when the push of the log has returned
    (line 358, line 383), and what the websocket does during the pass. *)
Record observation := {
  self_now : BrowserController;
  steps_after_send : list string;
  websocket : ws_message -> outcome unit;
}.

(** Lines 339-358: the pushes on attach; returns [last_steps_count]. *)
Definition stream_attach (o : observation) : Exec (list ws_message) nat :=
  send_json (websocket o) (StatusMsg "connected" (session_id (self_now o)));;
  send_json (websocket o) (UrlMsg (url_or_blank (current_url (self_now o))));;
  send_json (websocket o) (StepsMsg (steps (self_now o)));;
  mret (length (steps_after_send o)).

(** Lines 363-391: one pass of the loop; returns [last_steps_count]. *)
Definition stream_tick (o : observation) (last_steps_count : nat)
  : Exec (list ws_message) nat :=
  try_except
    (match debug_links (self_now o) with
     | Some links =>
         if negb (debuggerFullscreenUrl links =? "")%string then
           send_json (websocket o) (LiveViewUrlMsg (debuggerFullscreenUrl links))
         else mret tt
     | None => mret tt
     end;;
     send_json (websocket o) (UrlMsg (url_or_blank (current_url (self_now o))));;
     if last_steps_count <? length (steps (self_now o)) then
       send_json (websocket o) (StepsMsg (steps (self_now o)));;
       mret (length (steps_after_send o))
     else mret last_steps_count)
    (fun stream_error => mret last_steps_count).

(** Lines 362-391: [while self.streaming], over the passes of a run. *)
Fixpoint stream_loop (ticks : list observation) (last_steps_count : nat)
  : Exec (list ws_message) unit :=
  match ticks with
  | [] => mret tt
  | o :: ticks =>
      if streaming (self_now o) then
        last_steps_count ← stream_tick o last_steps_count;
        stream_loop ticks last_steps_count
      else mret tt
  end.

(** [stream_browser]: what the listener receives during a run. *)
Definition stream_browser (attach : observation) (ticks : list observation)
  : list ws_message :=
  snd (try_except
         (last_steps_count ← stream_attach attach;
          stream_loop ticks last_steps_count)
         (fun e => mret tt)
         []).

(** * The request handlers of main.py *)

Module main.

(** What [POST /api/browser/start] answers. *)
Inductive start_response :=
  | SessionExists (session_id : option string)
  | SessionStarted (session_id : string) (current_url : string)
  | StartHTTPException (status_code : nat) (detail : string).

(** What [POST /api/browser/query] answers. *)
Inductive query_response :=
  | QueryAnswer (response : pyval) (current_url : option string)
                (steps : list string)
  | QueryHTTPException (status_code : nat) (detail : string).

(** What [POST /api/browser/stop] answers. *)
Inductive stop_response :=
  | NoActiveSession
  | SessionStopped
  | StopHTTPException (status_code : nat) (detail : string).

(** [start_browser].  The controller is in the table while
    [start_session] mutates it, and is deleted again on an error. *)
Definition start_browser (bb : Browserbase) (user_id : string)
    (browser_sessions : gmap string BrowserController)
  : start_response * gmap string BrowserController :=
  match browser_sessions !! user_id with
  | Some controller => (SessionExists (session_id controller), browser_sessions)
  | None =>
      let '(result, controller) := start_session bb (init user_id) in
      let browser_sessions := <[user_id := controller]> browser_sessions in
      match result with
      | Ok (Connected sid url _) => (SessionStarted sid url, browser_sessions)
      | Ok (StartError error) =>
          (StartHTTPException 500 error, delete user_id browser_sessions)
      | Raise e => (StartHTTPException 500 "Internal Server Error", browser_sessions)
      end
  end.

(** [process_query] *)
Definition process_query (env : query_env) (user_id query : string)
    (browser_sessions : gmap string BrowserController)
  : query_response * gmap string BrowserController :=
  match browser_sessions !! user_id with
  | None => (QueryHTTPException 404 "No active browser session found",
             browser_sessions)
  | Some controller =>
      let '(result, controller) := process_query env query controller in
      let browser_sessions := <[user_id := controller]> browser_sessions in
      match result with
      | Ok (QueryError error _ _) => (QueryHTTPException 500 error, browser_sessions)
      | Ok (Success aiResponse url steps) =>
          (QueryAnswer aiResponse url steps, browser_sessions)
      | Ok (PartialSuccess aiResponse url steps) =>
          (QueryAnswer (VStr aiResponse) url steps, browser_sessions)
      | Raise e =>
          (QueryHTTPException 500 "Internal Server Error", browser_sessions)
      end
  end.

(** [stop_browser] *)
Definition stop_browser (bb : Browserbase) (user_id : string)
    (browser_sessions : gmap string BrowserController)
  : stop_response * gmap string BrowserController :=
  match browser_sessions !! user_id with
  | None => (NoActiveSession, browser_sessions)
  | Some controller =>
      let '(result, controller) := stop_session bb controller in
      match result with
      | Ok _ => (SessionStopped, delete user_id browser_sessions)
      | Raise e =>
          (StopHTTPException 500 "Internal Server Error",
           <[user_id := controller]> browser_sessions)
      end
  end.

(** [websocket_endpoint]: the messages pushed, and the table once the
    listener is gone ([finally: browser_controller.streaming = False]).
    What the relay finds in the controller at each of its passes depends on
    the handlers that run while it is suspended, hence the observations. *)
Definition websocket_endpoint (user_id : string) (attach : observation)
    (ticks : list observation)
    (browser_sessions : gmap string BrowserController)
  : list ws_message * gmap string BrowserController :=
  match browser_sessions !! user_id with
  | None => ([ErrorMsg "No active browser session found"], browser_sessions)
  | Some controller =>
      (stream_browser attach ticks,
       <[user_id := set_streaming false controller]> browser_sessions)
  end.

(** [shutdown_event]: every controller is stopped, the table cleared. *)
Definition shutdown_event (bb : Browserbase)
    (browser_sessions : gmap string BrowserController)
  : gmap string BrowserController :=
  let stopped := (fun controller => snd (stop_session bb controller))
                 <$> browser_sessions in
  ∅.

(** One request to the API, with what the collaborators do meanwhile. *)
Inductive request :=
  | Start (bb : Browserbase) (user_id : string)
  | Query (env : query_env) (user_id query : string)
  | Stop (bb : Browserbase) (user_id : string)
  | Listen (user_id : string) (attach : observation) (ticks : list observation)
  | Shutdown (bb : Browserbase).

(** The session table after a request. *)
Definition handle (r : request) (browser_sessions : gmap string BrowserController)
  : gmap string BrowserController :=
  match r with
  | Start bb user_id => snd (start_browser bb user_id browser_sessions)
  | Query env user_id query => snd (process_query env user_id query browser_sessions)
  | Stop bb user_id => snd (stop_browser bb user_id browser_sessions)
  | Listen user_id attach ticks =>
      snd (websocket_endpoint user_id attach ticks browser_sessions)
  | Shutdown bb => shutdown_event bb browser_sessions
  end.

(** The session table after the requests served since process start. *)
Definition serve (requests : list request) : gmap string BrowserController :=
  foldl (fun browser_sessions r => handle r browser_sessions) ∅ requests.

End main.

(** * The normalization policy, in the words of the specification *)

(** An action is marked with a flag when it carries it and it holds. *)
Definition marked (flag : option pyval) : bool :=
  truthy (getattr flag (VBool false)).

(** What the policy settles on: the content of an action of the trace, or
    the generic statement. *)
Inductive selection :=
  | ContentOf (a : action)
  | GenericFallback.

(** "Prefer the last action marked both done and success; if none exists,
    the chronologically last action; if the trace is empty or unavailable,
    the generic statement." *)
Definition policy (result : agent_history) : selection :=
  match all_results result with
  | Some trace =>
      match last (List.filter
                    (fun a => marked (is_done a) && marked (success a)) trace) with
      | Some a => ContentOf a
      | None =>
          match last trace with
          | Some a => ContentOf a
          | None => GenericFallback
          end
      end
  | None => GenericFallback
  end.

(** The answer a selection stands for, where an attribute lookup with a
    default is used ... *)
Definition selected_or_empty (s : selection) : pyval :=
  match s with
  | ContentOf a => getattr (extracted_content a) (VStr "")
  | GenericFallback => VStr could_not_format
  end.

(** ... and where the attribute is read directly. *)
Definition selected (s : selection) : outcome pyval :=
  match s with
  | ContentOf a => dot_extracted_content a
  | GenericFallback => Ok (VStr could_not_format)
  end.

(** Every action that is marked done says whether it succeeded. *)
Definition explicit_success (trace : list action) : bool :=
  forallb (fun a => negb (marked (is_done a))
                    || match success a with Some _ => true | None => false end)
          trace.

(** * Runs and observations used by the properties *)

(** A controller after a series of queries. *)
Definition process_queries (queries : list (query_env * string))
    (c : BrowserController) : BrowserController :=
  foldl (fun c q => snd (process_query q.1 q.2 c)) c queries.

(** [session_id] and [connection_url] are both unset or both set. *)
Definition identity_paired (c : BrowserController) : bool :=
  match session_id c, connection_url c with
  | None, None => true
  | Some _, Some _ => true
  | _, _ => false
  end.

(** Unfolds the monad so that a body becomes the tree of its paths. *)
Ltac exec_unfold :=
  unfold try_except, mbind, Exec_bind, call, steps_append, modify, get, mret,
    Exec_ret, raise in *.

(** Splits on the next oracle or attribute the body depends on. *)
Ltac exec_split :=
  match goal with
  | H : context [match ?x with _ => _ end] |- _ =>
      lazymatch x with
      | context [match _ with _ => _ end] => fail
      | _ => destruct x eqn:?
      end
  | |- context [match ?x with _ => _ end] =>
      lazymatch x with
      | context [match _ with _ => _ end] => fail
      | _ => destruct x eqn:?
      end
  end.

Ltac exec_paths :=
  exec_unfold; repeat (simpl in *; first [discriminate | exec_split]).

(** * Sample collaborators *)

(** A provider that grants the session [sess-1]. *)
Definition granting : Browserbase :=
  {| sessions_create :=
       Ok {| id := "sess-1"; connect_url := "wss://connect/sess-1" |};
     sessions_debug := fun _ =>
       Ok {| debuggerFullscreenUrl := "https://live/sess-1" |};
     sessions_list := Ok [];
     sessions_retrieve := fun _ => Raise "Session not found";
     sessions_delete := fun _ => Ok tt |}.

(** A provider that grants the session but whose debug endpoint is down. *)
Definition debug_down : Browserbase :=
  {| sessions_create :=
       Ok {| id := "sess-1"; connect_url := "wss://connect/sess-1" |};
     sessions_debug := fun _ => Raise "debug endpoint unavailable";
     sessions_list := Ok [];
     sessions_retrieve := fun _ => Raise "Session not found";
     sessions_delete := fun _ => Ok tt |}.

(** A provider that refuses every call. *)
Definition refusing : Browserbase :=
  {| sessions_create := Raise "401 Unauthorized";
     sessions_debug := fun _ => Raise "401 Unauthorized";
     sessions_list := Raise "401 Unauthorized";
     sessions_retrieve := fun _ => Raise "401 Unauthorized";
     sessions_delete := fun _ => Raise "401 Unauthorized" |}.

(** A provider at its concurrency limit that lists [sess-7] with a stale
    connection URL and serves its full record on retrieval. *)
Definition at_limit : Browserbase :=
  {| sessions_create :=
       Raise "Error code: 429 - You've exceeded your max concurrent sessions limit (limit 1)";
     sessions_debug := fun _ =>
       Ok {| debuggerFullscreenUrl := "https://live/sess-7" |};
     sessions_list := Ok [ {| id := "sess-7"; connect_url := "" |} ];
     sessions_retrieve := fun _ =>
       Ok {| id := "sess-7"; connect_url := "wss://connect/sess-7" |};
     sessions_delete := fun _ => Ok tt |}.

(** The same provider with no session to list. *)
Definition at_limit_empty : Browserbase :=
  {| sessions_create :=
       Raise "Error code: 429 - You've exceeded your max concurrent sessions limit (limit 1)";
     sessions_debug := fun _ =>
       Ok {| debuggerFullscreenUrl := "https://live/sess-7" |};
     sessions_list := Ok [];
     sessions_retrieve := fun _ => Raise "Session not found";
     sessions_delete := fun _ => Ok tt |}.

(** A query during which every collaborator answers and the browser ends
    on [url]. *)
Definition answering (url : string) : query_env :=
  {| new_llms := Ok tt;
     new_agent := Ok tt;
     agent_run := Ok {| all_results := Some [] |};
     new_summary_message := Ok tt;
     summary_invoke := Ok {| content := Some (VStr "Sunny."); message_str := "" |};
     browser_current_url := Some url;
     browser_close := Ok tt |}.

(** A query during which the agent run fails. *)
Definition agent_down : query_env :=
  {| new_llms := Ok tt;
     new_agent := Ok tt;
     agent_run := Raise "Target closed";
     new_summary_message := Ok tt;
     summary_invoke := Ok {| content := Some (VStr "Sunny."); message_str := "" |};
     browser_current_url := None;
     browser_close := Ok tt |}.

(** A query during which the language models cannot be created. *)
Definition llm_down : query_env :=
  {| new_llms := Raise "The api_key client option must be set";
     new_agent := Ok tt;
     agent_run := Ok {| all_results := Some [] |};
     new_summary_message := Ok tt;
     summary_invoke := Ok {| content := Some (VStr "Sunny."); message_str := "" |};
     browser_current_url := None;
     browser_close := Ok tt |}.

(** The controller of user [alice] once [granting] has started it. *)
Definition alice : BrowserController :=
  snd (start_session granting (init "alice")).

Definition ten_urls : list string :=
  ["https://a.example/1"; "https://a.example/2"; "https://a.example/3";
   "https://a.example/4"; "https://a.example/5"; "https://a.example/6";
   "https://a.example/7"; "https://a.example/8"; "https://a.example/9";
   "https://a.example/10"].

(** [alice] after ten queries that each ended on a new page. *)
Definition alice_after_ten : BrowserController :=
  process_queries ((fun url => (answering url, "next page")) <$> ten_urls) alice.

(** A series of start requests for one user, with no other request in
    between: the answers, and the session table at the end. *)
Fixpoint start_calls (bbs : list Browserbase) (user_id : string)
    (browser_sessions : gmap string BrowserController)
  : list main.start_response * gmap string BrowserController :=
  match bbs with
  | [] => ([], browser_sessions)
  | bb :: bbs =>
      let '(r, browser_sessions) := main.start_browser bb user_id browser_sessions in
      let '(rs, browser_sessions) := start_calls bbs user_id browser_sessions in
      (r :: rs, browser_sessions)
  end.

(** The narration log an HTTP answer to a query carries, if any: an
    [HTTPException] carries a status code and a detail only. *)
Definition response_steps (r : main.query_response) : option (list string) :=
  match r with
  | main.QueryAnswer _ _ steps => Some steps
  | main.QueryHTTPException _ _ => None
  end.



(** The live-view URL of a controller, when it is known. *)
Definition live_view_url (c : BrowserController) : list string :=
  match debug_links c with
  | Some links =>
      if negb (debuggerFullscreenUrl links =? "")%string
      then [debuggerFullscreenUrl links]
      else []
  | None => []
  end.



(** A pass of the relay that finds the controller [c], still streaming,
    with a websocket that delivers. *)
Definition watching (c : BrowserController) : observation :=
  {| self_now := set_streaming true c;
     steps_after_send := steps c;
     websocket := fun _ => Ok tt |}.

(** [alice] after a query whose agent run failed. *)
Definition alice_after_failure : BrowserController :=
  snd (process_query agent_down "weather" alice).

(** [_update_current_url] *)
Definition _update_current_url (url : string) : Exec BrowserController unit :=
  modify (set_current_url (Some url));;
  steps_append ("Now at: " +:+ url).

(** The user a request is for; [Shutdown] is for all of them. *)
Definition request_user (r : main.request) : option string :=
  match r with
  | main.Start _ user_id => Some user_id
  | main.Query _ user_id _ => Some user_id
  | main.Stop _ user_id => Some user_id
  | main.Listen user_id _ _ => Some user_id
  | main.Shutdown _ => None
  end.

Definition is_ok {A} (r : outcome A) : bool :=
  match r with Ok _ => true | Raise _ => false end.

(** During the query the collaborators answer as far as the summary
    request, and the browser ends on [url]. *)
Definition lands_on (env : query_env) (url : string) : Prop :=
  new_llms env = Ok tt /\ new_agent env = Ok tt /\
  is_ok (agent_run env) = true /\ new_summary_message env = Ok tt /\
  browser_current_url env = Some url /\ url <> "".

(** The entry of the narration log that says how the session was
    established. *)
Definition is_start_entry (step : string) : bool :=
  (step =? "Browser session initialized")%string
  || (step =? "Browser session reused")%string.

(** A provider at its concurrency limit whose listed session is gone when
    it is retrieved. *)
Definition at_limit_stale : Browserbase :=
  {| sessions_create :=
       Raise "Error code: 429 - You've exceeded your max concurrent sessions limit (limit 1)";
     sessions_debug := fun _ => Raise "debug endpoint unavailable";
     sessions_list := Ok [ {| id := "sess-7"; connect_url := "" |} ];
     sessions_retrieve := fun _ => Raise "Session not found";
     sessions_delete := fun _ => Ok tt |}.

(** What a listener can rely on in a message of the relay: a status is
    ["connected"], a URL is not empty, and no error message is pushed. *)
Definition well_formed (m : ws_message) : bool :=
  match m with
  | StatusMsg status _ => (status =? "connected")%string
  | UrlMsg data => negb (data =? "")%string
  | StepsMsg _ => true
  | LiveViewUrlMsg data => negb (data =? "")%string
  | ErrorMsg _ => false
  end.

(** A query during which the summariser call fails, after an agent run
    whose last action is done and carries the content [found]. *)
Definition summariser_down (found : string) : query_env :=
  {| new_llms := Ok tt;
     new_agent := Ok tt;
     agent_run :=
       Ok {| all_results :=
               Some [ {| is_done := Some (VBool true);
                         success := Some (VBool true);
                         extracted_content := Some (VStr found) |} ] |};
     new_summary_message := Ok tt;
     summary_invoke := Raise "Connection error.";
     browser_current_url := None;
     browser_close := Ok tt |}.

(** A query during which everything answers but closing the browser. *)
Definition close_fails (url : string) : query_env :=
  {| new_llms := Ok tt;
     new_agent := Ok tt;
     agent_run := Ok {| all_results := Some [] |};
     new_summary_message := Ok tt;
     summary_invoke := Ok {| content := Some (VStr "Sunny."); message_str := "" |};
     browser_current_url := Some url;
     browser_close := Raise "Target closed" |}.

(** A pass of the relay over [c] with a websocket that is closed. *)
Definition disconnected (c : BrowserController) : observation :=
  {| self_now := set_streaming true c;
     steps_after_send := steps c;
     websocket := fun _ => Raise "WebSocket is not connected" |}.

(** A pass of the relay that finds the streaming flag of [c] cleared. *)
Definition released (c : BrowserController) : observation :=
  {| self_now := set_streaming false c;
     steps_after_send := steps c;
     websocket := fun _ => Ok tt |}.

(** A query during which the summariser hands back the representation of
    the agent's history instead of a summary. *)
Definition summariser_echoes : query_env :=
  {| new_llms := Ok tt;
     new_agent := Ok tt;
     agent_run := Ok {| all_results := Some [] |};
     new_summary_message := Ok tt;
     summary_invoke :=
       Ok {| content := Some (VStr "AgentHistoryList(all_results=[])");
             message_str := "" |};
     browser_current_url := None;
     browser_close := Ok tt |}.

(** A request after which a Session of [uid] is still in the table: any
    request but a stop for [uid] and the shutdown. *)
Definition keeps_session (uid : string) (r : main.request) : bool :=
  match r with
  | main.Stop _ user_id => negb (user_id =? uid)%string
  | main.Shutdown _ => false
  | _ => true
  end.

(** * Properties *)

Section ListFacts.
Context {A : Type} (p : A -> bool).

Lemma filter_snoc (l : list A) (x : A) :
  List.filter p (l ++ [x]) = List.filter p l ++ (if p x then [x] else []).
Proof.
  induction l as [|y l IH]; simpl.
  - destruct (p x); reflexivity.
  - rewrite IH. destruct (p y); reflexivity.
Qed.

(** Scanning the reversed list for the first hit finds the last hit. *)
Lemma find_rev_last_filter (l : list A) :
  List.find p (rev l) = last (List.filter p l).
Proof.
  induction l as [|x l IH] using rev_ind; [reflexivity|].
  rewrite rev_unit, filter_snoc. simpl.
  destruct (p x).
  - symmetry. apply last_snoc.
  - rewrite app_nil_r. exact IH.
Qed.

Lemma filter_ext_in_list (q : A -> bool) (l : list A) :
  (forall a, a ∈ l -> p a = q a) -> List.filter p l = List.filter q l.
Proof.
  induction l as [|x l IH]; intros H; [reflexivity|]. simpl.
  rewrite (H x) by apply list_elem_of_here.
  rewrite IH; [reflexivity|].
  intros a Ha. apply H. apply list_elem_of_further. exact Ha.
Qed.
End ListFacts.

Lemma last_nonempty {A} (x : A) (l : list A) : last (x :: l) <> None.
Proof.
  intros H. apply last_None in H. discriminate.
Qed.

(** With explicit success flags the two paths test the same actions. *)
Lemma success_default_irrelevant (trace : list action) :
  explicit_success trace = true ->
  List.filter (fun a => truthy (getattr (is_done a) (VBool false))
                        && truthy (getattr (success a) (VBool true))) trace
  = List.filter (fun a => marked (is_done a) && marked (success a)) trace.
Proof.
  intros H. apply filter_ext_in_list. intros a Ha.
  unfold explicit_success in H. rewrite forallb_forall in H.
  apply list_elem_of_In, H in Ha. unfold marked in *.
  destruct (truthy (getattr (is_done a) (VBool false))); [|reflexivity].
  destruct (success a); [reflexivity | discriminate].
Qed.

Lemma sync_error_path_follows_policy (result : agent_history) (trace : list action) :
  all_results result = Some trace -> trace <> [] ->
  explicit_success trace = true ->
  extract_after_sync_error result = selected_or_empty (policy result).
Proof.
  intros Hres Hne Hexp. unfold extract_after_sync_error, policy.
  rewrite Hres. destruct trace as [|x l]; [congruence|].
  rewrite find_rev_last_filter, (success_default_irrelevant (x :: l) Hexp).
  destruct (last (List.filter _ (x :: l))); [reflexivity|].
  destruct (last (x :: l)) eqn:E; [reflexivity|].
  exfalso. exact (last_nonempty _ _ E).
Qed.

Lemma summary_error_path_follows_policy (query : string) (result : agent_history)
    (trace : list action) :
  all_results result = Some trace -> trace <> [] ->
  extract_after_summary_error query result = selected (policy result).
Proof.
  intros Hres Hne. unfold extract_after_summary_error, policy.
  rewrite Hres. unfold marked.
  destruct (last (List.filter _ trace)); [reflexivity|].
  destruct trace as [|x l]; [congruence|].
  destruct (last (x :: l)) eqn:E; [reflexivity|].
  exfalso. exact (last_nonempty _ _ E).
Qed.

(** C1, as amended.  On a non-empty trace both direct-extraction paths of
    [process_query] settle on the content of the last action marked done and
    success, and otherwise on the content of the chronologically last
    action: the path after a failed summariser call whenever every action
    marked done carries a success flag, the path after a failed summary
    request always.  On an empty or unavailable trace only the first path
    yields the generic could-not-format statement; the second yields the
    empty string (empty trace) or a statement naming the query (no trace).
    The traces [A; B; C] and [A; B] of the specification select C and B on
    both paths. *)
Theorem normalization_policy_by_path :
  (forall query result trace,
      all_results result = Some trace -> trace <> [] ->
      extract_after_summary_error query result = selected (policy result) /\
      (explicit_success trace = true ->
       extract_after_sync_error result = selected_or_empty (policy result))) /\
  (forall query result,
      all_results result = Some [] ->
      policy result = GenericFallback /\
      extract_after_sync_error result = VStr could_not_format /\
      extract_after_summary_error query result = Ok (VStr "")) /\
  (forall query result,
      all_results result = None ->
      policy result = GenericFallback /\
      extract_after_sync_error result = VStr could_not_format /\
      extract_after_summary_error query result =
        Ok (VStr ("Based on my web search, I found information related to your query about "
                  +:+ query))) /\
  (forall query sA cA cB cC,
      let A := {| is_done := Some (VBool false); success := sA;
                  extracted_content := cA |} in
      let B := {| is_done := Some (VBool true); success := Some (VBool false);
                  extracted_content := cB |} in
      let C := {| is_done := Some (VBool true); success := Some (VBool true);
                  extracted_content := Some cC |} in
      let result := {| all_results := Some [A; B; C] |} in
      policy result = ContentOf C /\
      extract_after_sync_error result = cC /\
      extract_after_summary_error query result = Ok cC) /\
  (forall query sA sB cA cB,
      let A := {| is_done := Some (VBool false); success := sA;
                  extracted_content := cA |} in
      let B := {| is_done := Some (VBool false); success := sB;
                  extracted_content := Some cB |} in
      let result := {| all_results := Some [A; B] |} in
      policy result = ContentOf B /\
      extract_after_sync_error result = cB /\
      extract_after_summary_error query result = Ok cB).
Proof.
  split; [|split; [|split; [|split]]].
  - intros query result trace Hres Hne. split.
    + eapply summary_error_path_follows_policy; eassumption.
    + intros Hexp. eapply sync_error_path_follows_policy; eassumption.
  - intros query result Hres.
    unfold policy, extract_after_sync_error, extract_after_summary_error.
    rewrite Hres. simpl. auto.
  - intros query result Hres.
    unfold policy, extract_after_sync_error, extract_after_summary_error.
    rewrite Hres. auto.
  - intros query sA cA cB cC A B C result. repeat split.
  - intros query sA sB cA cB A B result. repeat split.
Qed.

(** The theorem at the trace [A; B; C] with explicit flags. *)
Lemma normalization_policy_by_path_witness :
  let A := {| is_done := Some (VBool false); success := Some (VBool false);
              extracted_content := Some (VStr "a") |} in
  let B := {| is_done := Some (VBool true); success := Some (VBool false);
              extracted_content := Some (VStr "b") |} in
  let C := {| is_done := Some (VBool true); success := Some (VBool true);
              extracted_content := Some (VStr "c") |} in
  let result := {| all_results := Some [A; B; C] |} in
  extract_after_summary_error "weather" result = Ok (VStr "c") /\
  extract_after_sync_error result = VStr "c".
Proof.
  intros A B C result.
  destruct normalization_policy_by_path as [H _].
  destruct (H "weather" result [A; B; C]) as [H2 H1];
    [reflexivity | discriminate |].
  split.
  - rewrite H2. reflexivity.
  - rewrite H1; reflexivity.
Defined.

(** C1 as the specification states it fails: on an empty trace the path
    after a failed summary request yields the empty string and not the
    generic statement, and the path after a failed summariser call takes an
    action marked done that carries no success flag for a successful one. *)
Lemma normalization_policy_counterexample :
  let empty := {| all_results := Some [] |} in
  let X := {| is_done := Some (VBool true); success := None;
              extracted_content := Some (VStr "x") |} in
  let Y := {| is_done := Some (VBool false); success := Some (VBool false);
              extracted_content := Some (VStr "y") |} in
  let unflagged := {| all_results := Some [X; Y] |} in
  selected (policy empty) = Ok (VStr could_not_format) /\
  extract_after_summary_error "weather" empty = Ok (VStr "") /\
  extract_after_summary_error "weather" empty <> selected (policy empty) /\
  selected_or_empty (policy unflagged) = VStr "y" /\
  extract_after_sync_error unflagged = VStr "x" /\
  extract_after_sync_error unflagged <> selected_or_empty (policy unflagged).
Proof.
  cbv zeta. repeat split; discriminate.
Qed.






(** * Sanitization *)

Lemma append_nonempty_l (s t : string) : s <> "" -> s +:+ t <> "".
Proof. destruct s; [congruence|]. discriminate. Qed.

Lemma apology_not_empty (query : string) : apology query <> "".
Proof. unfold apology. apply append_nonempty_l. discriminate. Qed.

Lemma apology_not_object_repr (query : string) :
  startswith (apology query) "AgentHistoryList" = false.
Proof. reflexivity. Qed.

Lemma sanitize_text (query : string) (v : pyval) :
  exists s, sanitize query v = VStr s /\ s <> ""
            /\ startswith s "AgentHistoryList" = false.
Proof.
  pose proof (apology_not_empty query) as Hne.
  pose proof (apology_not_object_repr query) as Hrepr.
  destruct v as [| | |s| |]; simpl; eauto.
  destruct (startswith s "AgentHistoryList") eqn:Hs; simpl; eauto.
  destruct (String.eqb_spec s ""); simpl; eauto.
Qed.

(** * Running a method body *)

(** ** process_query *)

Lemma process_query_returns (env : query_env) (query : string)
    (c : BrowserController) :
  exists r, fst (process_query env query c) = Ok r.
Proof.
  unfold process_query, summarize, update_current_url.
  exec_paths; eauto.
Qed.

(** The answer of the success branch went through [sanitize]. *)
Lemma process_query_success (env : query_env) (query : string)
    (c c' : BrowserController) a u st :
  process_query env query c = (Ok (Success a u st), c') ->
  exists v, a = sanitize query v /\ u = current_url c' /\ st = steps c'.
Proof.
  unfold process_query, summarize, update_current_url. intros H.
  exec_paths; simplify_eq; eauto.
Qed.

(** What the summary step hands on does not depend on the controller. *)
Lemma summarize_candidate (env : query_env) (query : string)
    (result : agent_history) (s s' : BrowserController) :
  summarize env query result s = (fst (summarize env query result s'), s).
Proof.
  unfold summarize. exec_paths; reflexivity.
Qed.

(** The answer of a success result is the sanitized candidate of the
    summary step. *)
Lemma process_query_candidate (env : query_env) (query : string)
    (c c' : BrowserController) a u st :
  process_query env query c = (Ok (Success a u st), c') ->
  exists result v,
    agent_run env = Ok result /\
    fst (summarize env query result c) = Ok v /\
    a = sanitize query v.
Proof.
  unfold process_query, summarize, update_current_url. intros H.
  exec_paths; simplify_eq; eexists _, _;
    (split; [reflexivity|]); (split; [|reflexivity]); simpl;
    repeat match goal with
           | E : ?x = _ |- context [?x] => rewrite E; simpl
           end;
    reflexivity.
Qed.

(** Whenever the run gets through, the candidate is sanitized with the
    query of the request and returned under status success. *)
Lemma process_query_sanitizes (env : query_env) (query : string)
    (c : BrowserController) (result : agent_history) (v : pyval) :
  is_Some (connection_url c) ->
  new_llms env = Ok tt -> new_agent env = Ok tt ->
  agent_run env = Ok result ->
  fst (summarize env query result c) = Ok v ->
  browser_close env = Ok tt ->
  exists c',
    process_query env query c
    = (Ok (Success (sanitize query v) (current_url c') (steps c')), c').
Proof.
  intros [x Hx] Hllm Hagent Hrun Hsum Hclose.
  unfold process_query, update_current_url. exec_unfold. simpl.
  rewrite Hllm, Hx, Hagent, Hrun. simpl.
  match goal with
  | |- context [summarize env query result ?s] =>
      rewrite (summarize_candidate env query result s c), Hsum
  end.
  rewrite Hclose.
  exec_paths;
    match goal with
    | |- exists c', (_, ?final) = _ => exists final; reflexivity
    end.
Qed.

(** C4.  Whatever candidate answer the summary step of the success branch
    of [process_query] produces, the [aiResponse] returned under status
    success is that candidate put through the final sanitization with the
    query of the request: a candidate that is not a string, is empty, or
    begins with [AgentHistoryList] is replaced by the fixed apology, which
    quotes the query, and any other candidate is returned as it is; so the
    [aiResponse] of a success result is always a non-empty string that does
    not begin with that tag. *)
Theorem sanitized_answer :
  (forall query v,
      isinstance_str v = false \/ v = VStr ""
      \/ (exists s, v = VStr s /\ startswith s "AgentHistoryList" = true) ->
      sanitize query v
      = VStr ("I searched for information about " +:+ query
              +:+ ", but encountered an issue formatting the results.")) /\
  (forall query s,
      s <> "" -> startswith s "AgentHistoryList" = false ->
      sanitize query (VStr s) = VStr s) /\
  (forall env query c c' aiResponse url steps,
      process_query env query c = (Ok (Success aiResponse url steps), c') ->
      exists s, aiResponse = VStr s /\ s <> ""
                /\ startswith s "AgentHistoryList" = false) /\
  (forall env query c c' aiResponse url steps,
      process_query env query c = (Ok (Success aiResponse url steps), c') ->
      exists result candidate,
        agent_run env = Ok result /\
        fst (summarize env query result c) = Ok candidate /\
        aiResponse = sanitize query candidate) /\
  (forall env query c result candidate,
      is_Some (connection_url c) ->
      new_llms env = Ok tt -> new_agent env = Ok tt ->
      agent_run env = Ok result ->
      fst (summarize env query result c) = Ok candidate ->
      browser_close env = Ok tt ->
      exists c',
        process_query env query c
        = (Ok (Success (sanitize query candidate) (current_url c') (steps c')),
           c')).
Proof.
  split; [|split; [|split; [|split]]].
  - intros query v [Hv|[->|(s & -> & Hs)]].
    + destruct v; try reflexivity. discriminate.
    + reflexivity.
    + simpl. rewrite Hs. reflexivity.
  - intros query s Hne Hs. simpl. rewrite Hs.
    destruct (String.eqb_spec s ""); [contradiction|reflexivity].
  - intros env query c c' a u st H.
    apply process_query_success in H as (v & -> & _).
    apply sanitize_text.
  - intros env query c c' a u st. apply process_query_candidate.
  - intros env query c result candidate. apply process_query_sanitizes.
Qed.

(** The theorem at a query of [alice] whose summariser hands back the
    representation of the agent's history, and at the candidates [None] and
    a plain sentence. *)
Lemma sanitized_answer_witness :
  (exists c',
      process_query summariser_echoes "weather" alice
      = (Ok (Success
               (VStr "I searched for information about weather, but encountered an issue formatting the results.")
               (current_url c') (steps c')), c')) /\
  sanitize "weather" VNone
  = VStr "I searched for information about weather, but encountered an issue formatting the results." /\
  sanitize "weather" (VStr "Sunny.") = VStr "Sunny.".
Proof.
  destruct sanitized_answer as (H1 & H2 & _ & _ & H5).
  split; [|split].
  - destruct (H5 summariser_echoes "weather" alice
                {| all_results := Some [] |}
                (VStr "AgentHistoryList(all_results=[])"))
      as [c' Hq].
    + eexists. reflexivity.
    + reflexivity.
    + reflexivity.
    + reflexivity.
    + reflexivity.
    + reflexivity.
    + exists c'. rewrite Hq.
      rewrite (H1 "weather" (VStr "AgentHistoryList(all_results=[])"));
        [reflexivity|].
      right. right. eexists. split; reflexivity.
  - apply (H1 "weather" VNone). left. reflexivity.
  - apply (H2 "weather" "Sunny."); [discriminate | reflexivity].
Defined.

(** End to end, on an agent run that returned an empty trace: when the
    summariser call raises, the answer is the could-not-format statement;
    when the summary request cannot be built, the empty string of the
    second extraction path is replaced by the apology. *)
Example empty_trace_answers :
  let sync_error :=
    {| new_llms := Ok tt; new_agent := Ok tt;
       agent_run := Ok {| all_results := Some [] |};
       new_summary_message := Ok tt;
       summary_invoke := Raise "Connection error.";
       browser_current_url := None; browser_close := Ok tt |} in
  let summary_error :=
    {| new_llms := Ok tt; new_agent := Ok tt;
       agent_run := Ok {| all_results := Some [] |};
       new_summary_message := Raise "The api_key client option must be set";
       summary_invoke := Raise "Connection error.";
       browser_current_url := None; browser_close := Ok tt |} in
  fst (main.process_query sync_error "alice" "weather" {[ "alice" := alice ]})
  = main.QueryAnswer
      (VStr "I found information related to your query but had trouble formatting the results.")
      (Some "https://www.google.com")
      ["Browser session initialized"; "Starting with https://www.google.com";
       "Processing query: weather"; "Browser agent initialized";
       "Executing query..."; "Query execution completed"] /\
  fst (main.process_query summary_error "alice" "weather" {[ "alice" := alice ]})
  = main.QueryAnswer
      (VStr "I searched for information about weather, but encountered an issue formatting the results.")
      (Some "https://www.google.com")
      ["Browser session initialized"; "Starting with https://www.google.com";
       "Processing query: weather"; "Browser agent initialized";
       "Executing query..."; "Query execution completed"].
Proof.
  cbv zeta. unfold main.process_query. rewrite lookup_singleton_eq.
  split; reflexivity.
Qed.

(** What [process_query] leaves alone. *)
Lemma process_query_frame (env : query_env) (query : string)
    (c : BrowserController) :
  let c' := snd (process_query env query c) in
  user_id c' = user_id c /\ session_id c' = session_id c /\
  session c' = session c /\ connection_url c' = connection_url c /\
  debug_links c' = debug_links c /\ streaming c' = streaming c.
Proof.
  unfold process_query, summarize, update_current_url.
  exec_paths; auto 10.
Qed.

(** [process_query] touches [history] only by appending the URL reached. *)
Lemma process_query_history (env : query_env) (query : string)
    (c : BrowserController) :
  let c' := snd (process_query env query c) in
  history c' = history c \/
  exists url, browser_current_url env = Some url /\ url <> ""
              /\ history c' = history_append url (history c).
Proof.
  unfold process_query, summarize, update_current_url.
  exec_paths; auto;
    right; eexists; (split; [reflexivity|]);
    (split; [|reflexivity]);
    match goal with
    | H : negb (?u =? "")%string = true |- _ =>
        destruct (String.eqb_spec u ""); [discriminate | assumption]
    end.
Qed.

Lemma process_query_success_history (env : query_env) (query : string)
    (c c' : BrowserController) a u st url :
  process_query env query c = (Ok (Success a u st), c') ->
  browser_current_url env = Some url -> url <> "" ->
  history c' = history_append url (history c) /\ current_url c' = Some url.
Proof.
  unfold process_query, summarize, update_current_url. intros H Hurl Hne.
  rewrite Hurl in H.
  destruct (String.eqb_spec url ""); [contradiction|].
  exec_paths; simplify_eq; auto.
Qed.

(** ** history *)

Lemma history_append_length (url : string) (h : list string) :
  length (history_append url h) <= 10.
Proof.
  unfold history_append.
  destruct (Nat.ltb_spec 10 (length (h ++ [url]))) as [H|H]; [|exact H].
  rewrite length_drop. lia.
Qed.

Lemma history_append_full (url : string) (h : list string) :
  length h = 10 -> history_append url h = drop 1 h ++ [url].
Proof.
  intros H. unfold history_append.
  rewrite length_app, H. simpl.
  apply drop_app_le. lia.
Qed.

Lemma history_append_room (url : string) (h : list string) :
  length h < 10 -> history_append url h = h ++ [url].
Proof.
  intros H. unfold history_append.
  rewrite length_app. simpl.
  destruct (Nat.ltb_spec 10 (length h + 1)); [lia|reflexivity].
Qed.

Lemma process_query_history_bound (env : query_env) (query : string)
    (c : BrowserController) :
  length (history c) <= 10 ->
  length (history (snd (process_query env query c))) <= 10.
Proof.
  intros H.
  destruct (process_query_history env query c) as [->|(url & _ & _ & ->)];
    [exact H | apply history_append_length].
Qed.

Lemma process_queries_history_bound (queries : list (query_env * string))
    (c : BrowserController) :
  length (history c) <= 10 ->
  length (history (process_queries queries c)) <= 10.
Proof.
  revert c. induction queries as [|[env query] queries IH]; intros c H.
  - exact H.
  - simpl. apply IH. apply process_query_history_bound. exact H.
Qed.

(** ** start_session and stop_session *)

Lemma start_session_returns (bb : Browserbase) (c : BrowserController) :
  exists r, fst (start_session bb c) = Ok r.
Proof.
  unfold start_session, start_new, start_reuse.
  exec_paths; eauto.
Qed.

Lemma start_session_connected (bb : Browserbase) (c c' : BrowserController)
    sid url live :
  start_session bb c = (Ok (Connected sid url live), c') ->
  session_id c' = Some sid /\ is_Some (connection_url c') /\
  current_url c' = Some url /\ history c' = history c.
Proof.
  unfold start_session, start_new, start_reuse. intros H.
  exec_paths; simplify_eq; simpl; eauto.
Qed.

Lemma start_session_history (bb : Browserbase) (c : BrowserController) :
  history (snd (start_session bb c)) = history c.
Proof.
  unfold start_session, start_new, start_reuse.
  exec_paths; reflexivity.
Qed.

Lemma stop_session_returns (bb : Browserbase) (c : BrowserController) :
  fst (stop_session bb c) = Ok tt.
Proof.
  unfold stop_session, clear_identity.
  exec_paths; reflexivity.
Qed.

(** [stop_session] never touches [connection_url]; it forgets a session
    identifier that is set (and not the empty string). *)
Lemma stop_session_fields (bb : Browserbase) (c : BrowserController) :
  let c' := snd (stop_session bb c) in
  connection_url c' = connection_url c /\
  (session_id c <> Some "" -> session_id c' = None).
Proof.
  unfold stop_session, clear_identity.
  exec_paths; split; try reflexivity; intros Hne; try reflexivity;
    try assumption.
  destruct (String.eqb_spec s ""); [subst; contradiction | discriminate].
Qed.

(** ** The session table *)

Section TableInvariant.
Variable P : BrowserController -> Prop.
Hypothesis P_started : forall bb uid sid url live c,
  start_session bb (init uid) = (Ok (Connected sid url live), c) -> P c.
Hypothesis P_query : forall env query c,
  P c -> P (snd (process_query env query c)).
Hypothesis P_streaming : forall c, P c -> P (set_streaming false c).

Lemma handle_invariant (r : main.request)
    (t : gmap string BrowserController) :
  map_Forall (fun _ c => P c) t ->
  map_Forall (fun _ c => P c) (main.handle r t).
Proof.
  intros Ht. destruct r as [bb uid|env uid query|bb uid|uid attach ticks|bb];
    simpl.
  - unfold main.start_browser.
    destruct (t !! uid) as [c|] eqn:Hc; [exact Ht|].
    destruct (start_session bb (init uid)) as [r c] eqn:Hs.
    destruct (start_session_returns bb (init uid)) as [r' Hr].
    rewrite Hs in Hr. simpl in Hr. subst r.
    destruct r' as [sid url live|e]; simpl.
    + apply map_Forall_insert_2; [|exact Ht]. eapply P_started, Hs.
    + rewrite delete_insert_eq. apply map_Forall_delete. exact Ht.
  - unfold main.process_query.
    destruct (t !! uid) as [c|] eqn:Hc; [|exact Ht].
    pose proof (P_query env query c (Ht _ _ Hc)) as Hq.
    destruct (process_query env query c) as [r c'].
    assert (map_Forall (fun _ c => P c) (<[uid := c']> t))
      by (apply map_Forall_insert_2; assumption).
    destruct r as [[| |]|]; assumption.
  - unfold main.stop_browser.
    destruct (t !! uid) as [c|] eqn:Hc; [|exact Ht].
    pose proof (stop_session_returns bb c) as Hr.
    destruct (stop_session bb c) as [r c']. simpl in Hr. subst r. simpl.
    apply map_Forall_delete. exact Ht.
  - unfold main.websocket_endpoint.
    destruct (t !! uid) as [c|] eqn:Hc; [|exact Ht]. simpl.
    apply map_Forall_insert_2; [|exact Ht]. apply P_streaming. eauto.
  - apply map_Forall_empty.
Qed.

Lemma serve_invariant (requests : list main.request) :
  map_Forall (fun _ c => P c) (main.serve requests).
Proof.
  unfold main.serve.
  induction requests as [|r requests IH] using rev_ind.
  - apply map_Forall_empty.
  - rewrite foldl_snoc. apply handle_invariant. exact IH.
Qed.
End TableInvariant.

(** C3.  [history] never holds more than 10 entries: not for any Session of
    the session table after any series of requests, and not for a started
    controller after any series of processed queries.  A query that
    succeeds on a new page when [history] holds 10 entries evicts the
    oldest entry and keeps the other entries in their order, the new page
    last. *)
Theorem history_at_most_ten :
  (forall requests uid c,
      main.serve requests !! uid = Some c -> length (history c) <= 10) /\
  (forall bb uid queries,
      length (history (process_queries queries
                         (snd (start_session bb (init uid))))) <= 10) /\
  (forall env query c c' aiResponse url' steps' url,
      process_query env query c = (Ok (Success aiResponse url' steps'), c') ->
      browser_current_url env = Some url -> url <> "" ->
      length (history c) = 10 ->
      history c' = drop 1 (history c) ++ [url]).
Proof.
  split; [|split].
  - intros requests uid c Hc.
    refine (serve_invariant (fun c => length (history c) <= 10) _ _ _
              requests uid c Hc).
    + intros bb u sid url live c0 Hs.
      apply start_session_connected in Hs as (_ & _ & _ & ->). simpl. lia.
    + intros env query c0. apply process_query_history_bound.
    + intros c0 H. exact H.
  - intros bb uid queries. apply process_queries_history_bound.
    rewrite start_session_history. simpl. lia.
  - intros env query c c' a u st url Hq Hurl Hne Hlen.
    destruct (process_query_success_history _ _ _ _ _ _ _ _ Hq Hurl Hne)
      as [-> _].
    apply history_append_full. exact Hlen.
Qed.

(** The theorem at an eleventh query of [alice]. *)
Lemma history_at_most_ten_witness :
  length (history alice_after_ten) = 10 /\
  history (snd (process_query (answering "https://a.example/11") "next page"
                  alice_after_ten))
  = drop 1 (history alice_after_ten) ++ ["https://a.example/11"].
Proof.
  destruct history_at_most_ten as (_ & _ & H).
  split; [reflexivity|].
  eapply (H (answering "https://a.example/11") "next page" alice_after_ten
            (snd (process_query (answering "https://a.example/11") "next page"
                    alice_after_ten))).
  - reflexivity.
  - reflexivity.
  - discriminate.
  - reflexivity.
Defined.

Example alice_history_after_eleven :
  history (snd (process_query (answering "https://a.example/11") "next page"
                  alice_after_ten))
  = ["https://a.example/2"; "https://a.example/3"; "https://a.example/4";
     "https://a.example/5"; "https://a.example/6"; "https://a.example/7";
     "https://a.example/8"; "https://a.example/9"; "https://a.example/10";
     "https://a.example/11"].
Proof. reflexivity. Qed.

(** ** session_id and connection_url *)

(** C2, as amended.  [session_id] and [connection_url] are both unset after
    construction and both set after a [start_session] that succeeds, and
    both are set in every Session of the session table after any series of
    requests.  [stop_session] forgets [session_id] and leaves
    [connection_url] as it was; the Session it stopped, like one whose start
    failed, is not kept in the table. *)
Theorem identity_fields_by_lifecycle :
  (forall uid,
      identity_paired (init uid) = true /\ session_id (init uid) = None) /\
  (forall bb c c' sid url live,
      start_session bb c = (Ok (Connected sid url live), c') ->
      identity_paired c' = true /\ session_id c' = Some sid) /\
  (forall requests uid c,
      main.serve requests !! uid = Some c ->
      identity_paired c = true /\ is_Some (session_id c)) /\
  (forall bb c,
      connection_url (snd (stop_session bb c)) = connection_url c /\
      (session_id c <> Some "" -> session_id (snd (stop_session bb c)) = None)) /\
  (forall bb uid t,
      snd (main.stop_browser bb uid t) !! uid = None) /\
  (forall bb uid t code detail,
      fst (main.start_browser bb uid t) = main.StartHTTPException code detail ->
      snd (main.start_browser bb uid t) !! uid = None).
Proof.
  assert (Hstart : forall bb c c' sid url live,
             start_session bb c = (Ok (Connected sid url live), c') ->
             identity_paired c' = true /\ session_id c' = Some sid).
  { intros bb c c' sid url live H.
    apply start_session_connected in H as (Hid & [x Hx] & _).
    unfold identity_paired. rewrite Hid, Hx. auto. }
  split; [|split; [|split; [|split; [|split]]]].
  - intros uid. split; reflexivity.
  - exact Hstart.
  - intros requests uid c Hc.
    refine (serve_invariant
              (fun c => identity_paired c = true /\ is_Some (session_id c))
              _ _ _ requests uid c Hc).
    + intros bb u sid url live c0 Hs.
      apply Hstart in Hs as [Hp Hid]. rewrite Hid. eauto.
    + intros env query c0 H. unfold identity_paired.
      destruct (process_query_frame env query c0) as (_ & -> & _ & -> & _).
      exact H.
    + intros c0 H. exact H.
  - intros bb c. apply stop_session_fields.
  - intros bb uid t. unfold main.stop_browser.
    destruct (t !! uid) as [c|] eqn:Hc; [|exact Hc].
    pose proof (stop_session_returns bb c) as Hr.
    destruct (stop_session bb c) as [r c']. simpl in Hr. subst r. simpl.
    apply lookup_delete_eq.
  - intros bb uid t code detail. unfold main.start_browser.
    destruct (t !! uid) as [c|] eqn:Hc; [discriminate|].
    destruct (start_session_returns bb (init uid)) as [r' Hr].
    destruct (start_session bb (init uid)) as [r c]. simpl in Hr. subst r.
    destruct r' as [sid url live|e]; simpl; [discriminate|].
    intros _. apply lookup_delete_eq.
Qed.

(** The theorem at the controller of [alice], started and then stopped. *)
Lemma identity_fields_by_lifecycle_witness :
  (identity_paired alice = true /\ session_id alice = Some "sess-1") /\
  session_id (snd (stop_session granting alice)) = None /\
  main.serve [main.Start granting "alice"; main.Start refusing "bob"] !! "bob"
  = None.
Proof.
  destruct identity_fields_by_lifecycle as (_ & H2 & _ & H4 & _ & H6).
  split; [|split].
  - apply (H2 granting (init "alice") alice "sess-1" "https://www.google.com"
              "https://live/sess-1").
    reflexivity.
  - apply (H4 granting alice). discriminate.
  - apply (H6 refusing "bob" (main.serve [main.Start granting "alice"])
              500 "401 Unauthorized").
    reflexivity.
Defined.

(** C2 as the specification states it fails: after [stop_session] the
    session identifier is unset while the connection URL is still set, and
    after a [start_session] that fails at the debug links the session
    identifier is set while the connection URL is not. *)
Lemma identity_fields_counterexample :
  let stopped := snd (stop_session granting alice) in
  let failed := snd (start_session debug_down (init "alice")) in
  (session_id stopped = None /\
   connection_url stopped = Some "wss://connect/sess-1" /\
   identity_paired stopped = false) /\
  (fst (start_session debug_down (init "alice"))
   = Ok (StartError "debug endpoint unavailable") /\
   session_id failed = Some "sess-1" /\
   connection_url failed = None /\
   identity_paired failed = false).
Proof. cbv zeta. repeat split. Qed.

(** ** Starting a session twice *)

Lemma start_calls_existing (bbs : list Browserbase) (uid : string)
    (t : gmap string BrowserController) (c : BrowserController) :
  t !! uid = Some c ->
  start_calls bbs uid t
  = (replicate (length bbs) (main.SessionExists (session_id c)), t).
Proof.
  intros Hc. induction bbs as [|bb bbs IH]; [reflexivity|].
  simpl. unfold main.start_browser at 1. rewrite Hc, IH. reflexivity.
Qed.

Lemma start_browser_started (bb : Browserbase) (uid : string)
    (t : gmap string BrowserController) sid url :
  fst (main.start_browser bb uid t) = main.SessionStarted sid url ->
  t !! uid = None /\
  exists c, snd (main.start_browser bb uid t) = <[uid := c]> t
            /\ session_id c = Some sid.
Proof.
  unfold main.start_browser.
  destruct (t !! uid) as [c|] eqn:Hc; [discriminate|].
  destruct (start_session bb (init uid)) as [r c] eqn:Hs.
  destruct r as [[sid' url' live|e]|e]; simpl; try discriminate.
  intros [= -> ->]. split; [reflexivity|]. exists c. split; [reflexivity|].
  apply start_session_connected in Hs as (-> & _). reflexivity.
Qed.

(** A request that is not a stop for [uid] nor the shutdown keeps the
    Session of [uid] in the table, with its session identifier. *)
Lemma handle_keeps_identity (r : main.request) (uid : string)
    (t : gmap string BrowserController) (c : BrowserController) :
  keeps_session uid r = true -> t !! uid = Some c ->
  exists c', main.handle r t !! uid = Some c' /\ session_id c' = session_id c.
Proof.
  intros Hr Hc.
  destruct r as [bb u|env u query|bb u|u attach ticks|bb]; simpl in *;
    try discriminate.
  - unfold main.start_browser. destruct (decide (u = uid)) as [->|Hne].
    + rewrite Hc. simpl. eauto.
    + destruct (t !! u); [simpl; eauto|].
      destruct (start_session bb (init u)) as [[[sid url live|e]|e] c0]; simpl;
        rewrite ?lookup_delete_ne, ?lookup_insert_ne by exact Hne; eauto.
  - unfold main.process_query. destruct (decide (u = uid)) as [->|Hne].
    + rewrite Hc.
      pose proof (process_query_frame env query c) as (_ & Hid & _).
      destruct (process_query env query c) as [[[| |]|] c']; simpl in *;
        rewrite lookup_insert_eq; eauto.
    + destruct (t !! u) as [c0|]; [|eauto].
      destruct (process_query env query c0) as [[[| |]|] c']; simpl;
        rewrite lookup_insert_ne by exact Hne; eauto.
  - destruct (String.eqb_spec u uid) as [|Hne]; [discriminate|].
    unfold main.stop_browser. destruct (t !! u) as [c0|]; [|eauto].
    pose proof (stop_session_returns bb c0) as Hs.
    destruct (stop_session bb c0) as [r c']. simpl in Hs. subst r. simpl.
    rewrite lookup_delete_ne by exact Hne. eauto.
  - unfold main.websocket_endpoint. destruct (decide (u = uid)) as [->|Hne].
    + rewrite Hc. simpl. rewrite lookup_insert_eq. eauto.
    + destruct (t !! u); simpl; rewrite ?lookup_insert_ne by exact Hne; eauto.
Qed.

Lemma requests_keep_identity (requests : list main.request) (uid : string)
    (t : gmap string BrowserController) (c : BrowserController) :
  forallb (keeps_session uid) requests = true -> t !! uid = Some c ->
  exists c',
    foldl (fun t r => main.handle r t) t requests !! uid = Some c' /\
    session_id c' = session_id c.
Proof.
  revert t c. induction requests as [|r requests IH]; intros t c Hall Hc.
  - simpl. eauto.
  - simpl in Hall. apply andb_true_iff in Hall as [Hr Hall]. simpl.
    destruct (handle_keeps_identity r uid t c Hr Hc) as (c1 & Hc1 & Hid1).
    destruct (IH _ c1 Hall Hc1) as (c' & Hc' & Hid').
    exists c'. split; [exact Hc'|]. congruence.
Qed.

(** C5, as amended.  Once a start request for a user has created the
    Session, that is the only Session created for the user until it is
    stopped: the table has grown by that one entry, and every later start
    request for the same user, whatever the provider would answer and
    whatever other requests were served in between (but a stop for that
    user or the shutdown), leaves the session table unchanged and returns
    the identifier the creating request recorded.  A start request that
    fails leaves the table as it was, so that the next one starts anew. *)
Theorem start_browser_idempotent :
  (forall bb bb' uid t sid url between,
      fst (main.start_browser bb uid t) = main.SessionStarted sid url ->
      forallb (keeps_session uid) between = true ->
      let t1 := snd (main.start_browser bb uid t) in
      let t2 := foldl (fun t r => main.handle r t) t1 between in
      (exists c, t1 = <[uid := c]> t /\ session_id c = Some sid) /\
      size t1 = S (size t) /\
      main.start_browser bb' uid t2 = (main.SessionExists (Some sid), t2)) /\
  (forall bb bbs uid t sid url,
      fst (main.start_browser bb uid t) = main.SessionStarted sid url ->
      exists c,
        session_id c = Some sid /\
        size (<[uid := c]> t) = S (size t) /\
        start_calls (bb :: bbs) uid t
        = (main.SessionStarted sid url
             :: replicate (length bbs) (main.SessionExists (Some sid)),
           <[uid := c]> t)) /\
  (forall bb uid t code detail,
      t !! uid = None ->
      fst (main.start_browser bb uid t) = main.StartHTTPException code detail ->
      snd (main.start_browser bb uid t) = t).
Proof.
  split; [|split].
  - intros bb bb' uid t sid url between H Hall t1 t2.
    apply start_browser_started in H as (Hnone & c & Ht & Hsid).
    fold t1 in Ht.
    assert (Hc : t1 !! uid = Some c) by (rewrite Ht; apply lookup_insert_eq).
    split; [eauto|]. split.
    + rewrite Ht. apply map_size_insert_None. exact Hnone.
    + destruct (requests_keep_identity between uid t1 c Hall Hc)
        as (c' & Hc' & Hid').
      fold t2 in Hc'. unfold main.start_browser. rewrite Hc'.
      rewrite Hid', Hsid. reflexivity.
  - intros bb bbs uid t sid url H. pose proof H as H'.
    apply start_browser_started in H' as (Hnone & c & Ht & Hsid).
    exists c. split; [exact Hsid|]. split.
    + apply map_size_insert_None. exact Hnone.
    + simpl. destruct (main.start_browser bb uid t) as [r t1].
      simpl in H, Ht. subst r t1.
      rewrite (start_calls_existing bbs uid _ c) by apply lookup_insert_eq.
      rewrite Hsid. reflexivity.
  - intros bb uid t code detail Hnone. unfold main.start_browser.
    rewrite Hnone.
    destruct (start_session_returns bb (init uid)) as [r' Hr].
    destruct (start_session bb (init uid)) as [r c]. simpl in Hr. subst r.
    destruct r' as [sid url live|e]; simpl; [discriminate|].
    intros _. rewrite delete_insert_eq. apply delete_id. exact Hnone.
Qed.

(** The theorem at a start of [alice] on an empty table, followed by a
    query of hers, a listener of hers and a start and stop of [bob], and
    then by a second start of [alice] at a provider that refuses. *)
Lemma start_browser_idempotent_witness :
  let between :=
    [main.Query agent_down "alice" "weather";
     main.Start granting "bob";
     main.Listen "alice" (watching alice) [watching alice];
     main.Stop refusing "bob"] in
  let t1 := snd (main.start_browser granting "alice" ∅) in
  let t2 := foldl (fun t r => main.handle r t) t1 between in
  main.start_browser refusing "alice" t2
  = (main.SessionExists (Some "sess-1"), t2).
Proof.
  intros between t1 t2.
  destruct start_browser_idempotent as (H & _).
  apply (H granting refusing "alice" ∅ "sess-1" "https://www.google.com"
           between); reflexivity.
Defined.

(** C5 as the specification states it fails: when the first start request
    of a user fails, no Session and no identifier is recorded, and the
    second start request, made with no stop in between, changes the table:
    it is the one that creates the Session. *)
Lemma start_browser_idempotent_counterexample :
  let t0 : gmap string BrowserController := ∅ in
  let t1 := snd (main.start_browser refusing "alice" t0) in
  let t2 := snd (main.start_browser granting "alice" t1) in
  fst (main.start_browser refusing "alice" t0)
  = main.StartHTTPException 500 "401 Unauthorized" /\
  t1 !! "alice" = None /\
  fst (main.start_browser granting "alice" t1)
  = main.SessionStarted "sess-1" "https://www.google.com" /\
  t2 !! "alice" = Some alice /\
  t2 <> t1.
Proof.
  cbv zeta. split; [reflexivity|]. split; [reflexivity|].
  split; [reflexivity|]. split; [vm_compute; reflexivity|].
  intros H. apply (f_equal (fun t => t !! "alice")) in H.
  vm_compute in H. discriminate.
Qed.

(** ** The concurrency-limit fallback *)

(** C6.  When creating the session fails with the provider's
    concurrency-limit message, [start_session] lists the remote sessions.
    It takes the identifier of the first one, retrieves the full record
    under that identifier, and records the identifier and the connection
    URL of the retrieved record (not those of the list entry); if the list
    is empty, the result is the original failure. *)
Theorem concurrency_limit_fallback (bb : Browserbase) (c : BrowserController)
    (e : string) :
  sessions_create bb = Raise e ->
  contains "You've exceeded your max concurrent sessions limit" e = true ->
  (forall first rest full links,
      sessions_list bb = Ok (first :: rest) ->
      sessions_retrieve bb (id first) = Ok full ->
      sessions_debug bb (id full) = Ok links ->
      exists c',
        start_session bb c
        = (Ok (Connected (id full) "https://www.google.com"
                 (debuggerFullscreenUrl links)), c') /\
        session c' = Some full /\
        session_id c' = Some (id full) /\
        connection_url c' = Some (connect_url full) /\
        debug_links c' = Some links /\
        steps c' = steps c ++ ["Browser session reused";
                               "Starting with https://www.google.com"]) /\
  (sessions_list bb = Ok [] ->
   start_session bb c = (Ok (StartError e), c)).
Proof.
  intros Hcreate Hlimit. split.
  - intros first rest full links Hlist Hretrieve Hdebug.
    unfold start_session, start_new, start_reuse, limit_message.
    exec_unfold. rewrite Hcreate, Hlimit, Hlist, Hretrieve. simpl.
    rewrite Hdebug. simpl. eexists. split; [reflexivity|]. simpl.
    rewrite <- app_assoc. auto 10.
  - intros Hlist.
    unfold start_session, start_new, start_reuse, limit_message.
    exec_unfold. rewrite Hcreate, Hlimit, Hlist. reflexivity.
Qed.

(** The theorem at a provider whose list entry for [sess-7] has no
    connection URL, and at one with nothing to list. *)
Lemma concurrency_limit_fallback_witness :
  (exists c',
      fst (start_session at_limit (init "alice"))
      = Ok (Connected "sess-7" "https://www.google.com" "https://live/sess-7") /\
      c' = snd (start_session at_limit (init "alice")) /\
      session_id c' = Some "sess-7" /\
      connection_url c' = Some "wss://connect/sess-7") /\
  start_session at_limit_empty (init "alice")
  = (Ok (StartError
           "Error code: 429 - You've exceeded your max concurrent sessions limit (limit 1)"),
     init "alice").
Proof.
  split.
  - destruct (concurrency_limit_fallback at_limit (init "alice")
                "Error code: 429 - You've exceeded your max concurrent sessions limit (limit 1)"
                eq_refl eq_refl) as [H _].
    destruct (H {| id := "sess-7"; connect_url := "" |} []
                {| id := "sess-7"; connect_url := "wss://connect/sess-7" |}
                {| debuggerFullscreenUrl := "https://live/sess-7" |}
                eq_refl eq_refl eq_refl)
      as (c' & Hs & _ & Hid & Hurl & _).
    exists c'. rewrite Hs. auto.
  - apply (concurrency_limit_fallback at_limit_empty (init "alice")
             "Error code: 429 - You've exceeded your max concurrent sessions limit (limit 1)"
             eq_refl eq_refl).
    reflexivity.
Defined.

(** ** Failures during a query *)

Lemma append_assoc (a b c : string) : (a +:+ b) +:+ c = a +:+ b +:+ c.
Proof.
  induction a as [|x a IH]; [reflexivity|].
  change (String x ((a +:+ b) +:+ c) = String x (a +:+ b +:+ c)).
  f_equal. exact IH.
Qed.

Lemma prefix_append (p s : string) : String.prefix p (p +:+ s) = true.
Proof.
  induction p as [|a p IH].
  - destruct s; reflexivity.
  - change (String.prefix (String a p) (String a (p +:+ s)) = true).
    simpl. destruct (ascii_dec a a); [exact IH | contradiction].
Qed.

Lemma contains_prefix (p s : string) :
  String.prefix p s = true -> contains p s = true.
Proof. intros H. destruct s; cbn [contains]; rewrite H; reflexivity. Qed.

Lemma contains_append (p a b : string) : contains p (a +:+ p +:+ b) = true.
Proof.
  induction a as [|x a IH].
  - change ("" +:+ p +:+ b) with (p +:+ b).
    apply contains_prefix, prefix_append.
  - change (String x a +:+ p +:+ b) with (String x (a +:+ p +:+ b)).
    cbn [contains]. rewrite IH. apply orb_true_r.
Qed.

Lemma browser_apology_mentions (e : string) :
  browser_apology e <> "" /\ contains e (browser_apology e) = true.
Proof.
  unfold browser_apology. split.
  - discriminate.
  - rewrite append_assoc. apply contains_append.
Qed.

(** A query during which every collaborator answers is answered. *)
Lemma process_query_answers (env : query_env) (query : string)
    (c : BrowserController) result message :
  is_Some (connection_url c) ->
  new_llms env = Ok tt -> new_agent env = Ok tt ->
  agent_run env = Ok result -> new_summary_message env = Ok tt ->
  summary_invoke env = Ok message -> browser_close env = Ok tt ->
  exists a u st, fst (process_query env query c) = Ok (Success a u st).
Proof.
  intros [x Hx] H1 H2 H3 H4 H5 H6.
  unfold process_query, summarize, update_current_url. exec_unfold. simpl.
  rewrite H1, Hx, H2, H3, H4, H5, H6. simpl.
  exec_paths; eauto.
Qed.

(** C7.  When building the browser and agent or running the agent raises,
    [process_query] returns status [partial_success] with a non-empty
    answer that quotes the error, the current URL and the narration log,
    and the request is answered with them rather than failed.  The Session
    stays in the session table with its identity, and a later query
    during which the collaborators answer is answered. *)
Theorem agent_failure_partial_success (env : query_env) (uid query : string)
    (t : gmap string BrowserController) (c : BrowserController) (e : string) :
  t !! uid = Some c ->
  is_Some (connection_url c) ->
  new_llms env = Ok tt ->
  new_agent env = Raise e \/ (new_agent env = Ok tt /\ agent_run env = Raise e) ->
  exists c' answer,
    process_query env query c
    = (Ok (PartialSuccess answer (current_url c) (steps c')), c') /\
    answer = "I encountered an issue while trying to browse the web: " +:+ e
             +:+ ". I'm unable to access web content for this query right now." /\
    answer <> "" /\ contains e answer = true /\
    (exists progress,
        steps c' = steps c ++ ["Processing query: " +:+ query] ++ progress
                   ++ ["Browser error: " +:+ e]) /\
    main.process_query env uid query t
    = (main.QueryAnswer (VStr answer) (current_url c) (steps c'),
       <[uid := c']> t) /\
    session_id c' = session_id c /\ connection_url c' = connection_url c /\
    (forall env' query' result message,
        new_llms env' = Ok tt -> new_agent env' = Ok tt ->
        agent_run env' = Ok result -> new_summary_message env' = Ok tt ->
        summary_invoke env' = Ok message -> browser_close env' = Ok tt ->
        exists a u st,
          fst (main.process_query env' uid query' (<[uid := c']> t))
          = main.QueryAnswer a u st).
Proof.
  intros Hc [x Hx] Hllm Hagent.
  destruct (browser_apology_mentions e) as [Hne Hin].
  assert (exists progress,
             let c' := set_steps (steps c ++ ["Processing query: " +:+ query]
                                  ++ progress ++ ["Browser error: " +:+ e]) c in
             process_query env query c
             = (Ok (PartialSuccess (browser_apology e) (current_url c)
                      (steps c')), c')) as (pr & Hq).
  { unfold process_query. exec_unfold. simpl. rewrite Hllm, Hx.
    destruct Hagent as [Ha|[Ha Hr]].
    - rewrite Ha. simpl. exists []. simpl.
      rewrite <- app_assoc. reflexivity.
    - rewrite Ha, Hr. simpl.
      exists ["Browser agent initialized"; "Executing query..."]. simpl.
      rewrite <- !app_assoc. reflexivity. }
  simpl in Hq.
  set (c' := set_steps (steps c ++ ("Processing query: " +:+ query)
                        :: pr ++ ["Browser error: " +:+ e]) c) in *.
  assert (Hst : steps c' = steps c ++ ["Processing query: " +:+ query] ++ pr
                           ++ ["Browser error: " +:+ e]) by reflexivity.
  assert (Hid : session_id c' = session_id c) by reflexivity.
  assert (Hurl : connection_url c' = connection_url c) by reflexivity.
  exists c', (browser_apology e).
  split; [exact Hq|]. split; [unfold browser_apology; apply append_assoc|].
  split; [exact Hne|]. split; [exact Hin|]. split; [eauto|].
  split; [unfold main.process_query; rewrite Hc, Hq; reflexivity|].
  split; [exact Hid|]. split; [exact Hurl|].
  intros env' query' result message H1 H2 H3 H4 H5 H6.
  unfold main.process_query. rewrite lookup_insert_eq.
  destruct (process_query_answers env' query' c' result message)
    as (a & u & st & Hok); try assumption.
  { rewrite Hurl. eauto. }
  destruct (process_query env' query' c') as [r c'']. simpl in Hok. subst r.
  simpl. eauto.
Qed.

(** The theorem at a query of [alice] whose agent run fails. *)
Lemma agent_failure_partial_success_witness :
  exists c',
    main.process_query agent_down "alice" "weather" {[ "alice" := alice ]}
    = (main.QueryAnswer
         (VStr "I encountered an issue while trying to browse the web: Target closed. I'm unable to access web content for this query right now.")
         (Some "https://www.google.com") (steps c'),
       <["alice" := c']> {[ "alice" := alice ]}) /\
    session_id c' = Some "sess-1".
Proof.
  destruct (agent_failure_partial_success agent_down "alice" "weather"
              {[ "alice" := alice ]} alice "Target closed")
    as (c' & answer & _ & -> & _ & _ & _ & Hmain & Hid & _).
  - apply lookup_singleton_eq.
  - eexists. reflexivity.
  - reflexivity.
  - right. split; reflexivity.
  - exists c'. split; [exact Hmain | exact Hid].
Defined.

(** When [process_query] returns status [error]: the language models could
    not be created, or the controller has no connection URL. *)
Lemma process_query_error (env : query_env) (query : string)
    (c c' : BrowserController) e a st :
  process_query env query c = (Ok (QueryError e a st), c') ->
  (new_llms env = Raise e \/ connection_url c = None) /\
  c' = set_steps (steps c ++ ["Processing query: " +:+ query;
                              "Error: " +:+ e]) c /\
  st = steps c' /\
  a = "I encountered an error while processing your request: " +:+ e.
Proof.
  unfold process_query, summarize, update_current_url. intros H.
  exec_paths; simplify_eq; simpl; rewrite <- !app_assoc; simpl; auto.
Qed.

(** Everything [process_query] does before it builds the browser and the
    agent can fail in two ways: the language models cannot be created, or
    the controller has no connection URL.  Either is answered with status
    [error]. *)
Lemma process_query_unexpected (env : query_env) (query e : string)
    (c : BrowserController) :
  new_llms env = Raise e \/
  (new_llms env = Ok tt /\ connection_url c = None /\
   e = "'BrowserController' object has no attribute 'connection_url'") ->
  let c' := set_steps (steps c ++ ["Processing query: " +:+ query;
                                   "Error: " +:+ e]) c in
  process_query env query c
  = (Ok (QueryError e
           ("I encountered an error while processing your request: " +:+ e)
           (steps c')), c').
Proof.
  intros [H|(H & Hurl & ->)]; unfold process_query; exec_unfold; simpl;
    rewrite H, ?Hurl; simpl; rewrite <- app_assoc; reflexivity.
Qed.

(** C8, as amended.  A query ends in an unexpected failure when the
    language models cannot be created or the controller has no connection
    URL, and only then.  [process_query] of the controller then returns
    status [error] with the error text, an apology and the narration log,
    to which the query and the error were appended.  The request handler
    answers with an HTTP 500 whose detail is the error text: the narration
    log is not part of that answer; it stays with the Session in the
    session table. *)
Theorem unexpected_failure_response :
  (forall env uid query t c e,
      t !! uid = Some c ->
      new_llms env = Raise e \/
      (new_llms env = Ok tt /\ connection_url c = None /\
       e = "'BrowserController' object has no attribute 'connection_url'") ->
      exists c',
        process_query env query c
        = (Ok (QueryError e
                 ("I encountered an error while processing your request: " +:+ e)
                 (steps c')), c') /\
        steps c' = steps c ++ ["Processing query: " +:+ query; "Error: " +:+ e] /\
        main.process_query env uid query t
        = (main.QueryHTTPException 500 e, <[uid := c']> t) /\
        response_steps (fst (main.process_query env uid query t)) = None) /\
  (forall env uid query t c c' error aiResponse steps',
      t !! uid = Some c ->
      process_query env query c = (Ok (QueryError error aiResponse steps'), c') ->
      (new_llms env = Raise error \/ connection_url c = None) /\
      steps' = steps c ++ ["Processing query: " +:+ query; "Error: " +:+ error] /\
      aiResponse = "I encountered an error while processing your request: " +:+ error /\
      main.process_query env uid query t
      = (main.QueryHTTPException 500 error, <[uid := c']> t) /\
      response_steps (fst (main.process_query env uid query t)) = None /\
      steps c' = steps').
Proof.
  split.
  - intros env uid query t c e Hc He.
    pose proof (process_query_unexpected env query e c He) as Hq.
    simpl in Hq.
    exists (set_steps (steps c ++ ["Processing query: " +:+ query;
                                   "Error: " +:+ e]) c).
    split; [exact Hq|]. split; [reflexivity|].
    assert (Hmain : main.process_query env uid query t
                    = (main.QueryHTTPException 500 e,
                       <[uid := set_steps
                                  (steps c ++ ["Processing query: " +:+ query;
                                               "Error: " +:+ e]) c]> t))
      by (unfold main.process_query; rewrite Hc, Hq; reflexivity).
    rewrite Hmain. split; reflexivity.
  - intros env uid query t c c' error aiResponse steps' Hc Hq.
    pose proof Hq as Hq'.
    apply process_query_error in Hq' as (Hwhy & Hc' & Hst & Ha).
    assert (Hmain : main.process_query env uid query t
                    = (main.QueryHTTPException 500 error, <[uid := c']> t))
      by (unfold main.process_query; rewrite Hc, Hq; reflexivity).
    rewrite Hmain. subst c' steps' aiResponse. auto 10.
Qed.

(** The theorem at a query of [alice] during which no language model can be
    created. *)
Lemma unexpected_failure_response_witness :
  exists c',
    main.process_query llm_down "alice" "weather" {[ "alice" := alice ]}
    = (main.QueryHTTPException 500 "The api_key client option must be set",
       <["alice" := c']> {[ "alice" := alice ]}) /\
    steps c' = ["Browser session initialized";
                "Starting with https://www.google.com";
                "Processing query: weather";
                "Error: The api_key client option must be set"].
Proof.
  destruct unexpected_failure_response as [H _].
  destruct (H llm_down "alice" "weather" {[ "alice" := alice ]} alice
              "The api_key client option must be set")
    as (c' & _ & Hst & Hmain & _).
  - apply lookup_singleton_eq.
  - left. reflexivity.
  - exists c'. split; [exact Hmain|]. rewrite Hst. reflexivity.
Defined.

(** C8 as the specification states it fails: the answer to a query that
    ended in an unexpected failure carries no narration log, although the
    Session holds one. *)
Lemma unexpected_failure_counterexample :
  let t : gmap string BrowserController := {[ "alice" := alice ]} in
  let answer := fst (main.process_query llm_down "alice" "weather" t) in
  let session := snd (process_query llm_down "weather" alice) in
  fst (process_query llm_down "weather" alice)
  = Ok (QueryError "The api_key client option must be set"
          "I encountered an error while processing your request: The api_key client option must be set"
          (steps session)) /\
  answer = main.QueryHTTPException 500 "The api_key client option must be set" /\
  response_steps answer = None /\
  response_steps answer <> Some (steps session).
Proof.
  cbv zeta.
  assert (H : fst (main.process_query llm_down "alice" "weather"
                     {[ "alice" := alice ]})
              = main.QueryHTTPException 500 "The api_key client option must be set").
  { unfold main.process_query. rewrite lookup_singleton_eq. reflexivity. }
  rewrite H. repeat split. discriminate.
Qed.

(** ** The stream relay *)




Section Loop.
Variable n : nat.


End Loop.




(** * Further properties of the controller and the handlers *)

(** ** Teardown *)

Lemma stop_browser_result (bb : Browserbase) (uid : string)
    (t : gmap string BrowserController) :
  main.stop_browser bb uid t
  = match t !! uid with
    | Some _ => (main.SessionStopped, delete uid t)
    | None => (main.NoActiveSession, t)
    end.
Proof.
  unfold main.stop_browser. destruct (t !! uid) as [c|] eqn:Hc; [|reflexivity].
  pose proof (stop_session_returns bb c) as Hr.
  destruct (stop_session bb c) as [r c']. simpl in Hr. subst r.
  reflexivity.
Qed.

(** X1.  [stop_browser] answers that there is no session when the user has none
    and leaves the table as it is; otherwise the Session leaves the table,
    also when the provider refuses to delete the remote session.  Either
    way a query for that user is then answered with a 404. *)
Theorem stop_browser_teardown (bb : Browserbase) (uid : string)
    (t : gmap string BrowserController) :
  main.stop_browser bb uid t
  = match t !! uid with
    | Some _ => (main.SessionStopped, delete uid t)
    | None => (main.NoActiveSession, t)
    end /\
  forall env query,
    main.process_query env uid query (snd (main.stop_browser bb uid t))
    = (main.QueryHTTPException 404 "No active browser session found",
       snd (main.stop_browser bb uid t)).
Proof.
  split; [apply stop_browser_result|].
  intros env query. rewrite stop_browser_result.
  unfold main.process_query.
  destruct (t !! uid) as [c|] eqn:Hc; simpl.
  - rewrite lookup_delete_eq. reflexivity.
  - rewrite Hc. reflexivity.
Qed.

(** X2.  Starting a session for a user who has none and stopping it again gives
    back the session table, whether or not the start succeeded and whatever
    the provider answers to the deletion. *)
Theorem start_stop_round_trip (bb bb' : Browserbase) (uid : string)
    (t : gmap string BrowserController) :
  t !! uid = None ->
  snd (main.stop_browser bb' uid (snd (main.start_browser bb uid t))) = t.
Proof.
  intros Hnone.
  rewrite stop_browser_result.
  unfold main.start_browser. rewrite Hnone.
  destruct (start_session_returns bb (init uid)) as [r' Hr].
  destruct (start_session bb (init uid)) as [r c]. simpl in Hr. subst r.
  destruct r' as [sid url live|e]; simpl.
  - rewrite lookup_insert_eq. simpl. rewrite delete_insert_eq.
    apply delete_id, Hnone.
  - rewrite delete_insert_eq, lookup_delete_eq. simpl.
    apply delete_id, Hnone.
Qed.

Lemma start_stop_round_trip_witness :
  snd (main.stop_browser refusing "bob"
         (snd (main.start_browser granting "bob" {[ "alice" := alice ]})))
  = {[ "alice" := alice ]}.
Proof.
  apply (start_stop_round_trip granting refusing "bob" {[ "alice" := alice ]}).
  apply lookup_singleton_ne. discriminate.
Defined.

(** ** Isolation *)

(** X3.  A request for one user leaves the Session of every other user as it
    is: present or absent, and with the same fields. *)
Theorem requests_isolated (r : main.request) (uid uid' : string)
    (t : gmap string BrowserController) :
  request_user r = Some uid -> uid <> uid' ->
  main.handle r t !! uid' = t !! uid'.
Proof.
  intros Hr Hne.
  destruct r as [bb u|env u query|bb u|u attach ticks|bb];
    simpl in Hr; simplify_eq; simpl.
  - unfold main.start_browser. destruct (t !! uid); [reflexivity|].
    destruct (start_session bb (init uid)) as [[[sid url live|e]|e] c]; simpl;
      rewrite ?lookup_delete_ne, ?lookup_insert_ne by exact Hne; reflexivity.
  - unfold main.process_query. destruct (t !! uid) as [c|]; [|reflexivity].
    destruct (process_query env query c) as [[[| |]|] c']; simpl;
      rewrite lookup_insert_ne by exact Hne; reflexivity.
  - rewrite stop_browser_result. destruct (t !! uid); simpl;
      [apply lookup_delete_ne; exact Hne | reflexivity].
  - unfold main.websocket_endpoint. destruct (t !! uid) as [c|]; [|reflexivity].
    simpl. apply lookup_insert_ne. exact Hne.
Qed.

Lemma requests_isolated_witness :
  main.handle (main.Query agent_down "bob" "weather")
    (main.handle (main.Start granting "bob") {[ "alice" := alice ]}) !! "alice"
  = Some alice.
Proof.
  rewrite (requests_isolated (main.Query agent_down "bob" "weather") "bob" "alice");
    [|reflexivity|discriminate].
  rewrite (requests_isolated (main.Start granting "bob") "bob" "alice");
    [|reflexivity|discriminate].
  apply lookup_singleton_eq.
Defined.

(** ** Exceptions *)

Lemma stream_tick_returns (o : observation) (n : nat) (sent : list ws_message) :
  is_ok (fst (stream_tick o n sent)) = true.
Proof.
  unfold stream_tick, send_json. exec_paths; reflexivity.
Qed.

Lemma stream_loop_returns (ticks : list observation) (n : nat)
    (sent : list ws_message) :
  fst (stream_loop ticks n sent) = Ok tt.
Proof.
  revert n sent. induction ticks as [|o ticks IH]; intros n sent; [reflexivity|].
  simpl. destruct (streaming (self_now o)); [|reflexivity].
  unfold mbind, Exec_bind.
  pose proof (stream_tick_returns o n sent) as H.
  destruct (stream_tick o n sent) as [[n'|e] sent']; [apply IH | discriminate].
Qed.

(** X4.  No method of the controller lets an exception out, whatever the
    provider, the agent, the language models and the websocket do:
    [start_session], [process_query] and [stop_session] always return, and
    the relay loop outlives every failed push. *)
Theorem controller_never_raises :
  (forall bb c, is_ok (fst (start_session bb c)) = true) /\
  (forall env query c, is_ok (fst (process_query env query c)) = true) /\
  (forall bb c, fst (stop_session bb c) = Ok tt) /\
  (forall ticks n sent, fst (stream_loop ticks n sent) = Ok tt).
Proof.
  split; [|split; [|split]].
  - intros bb c. destruct (start_session_returns bb c) as [r ->]. reflexivity.
  - intros env query c.
    destruct (process_query_returns env query c) as [r ->]. reflexivity.
  - apply stop_session_returns.
  - apply stream_loop_returns.
Qed.

(** ** The narration log *)

Lemma process_query_steps (env : query_env) (query : string)
    (c : BrowserController) :
  exists rest,
    steps (snd (process_query env query c))
    = steps c ++ ("Processing query: " +:+ query) :: rest.
Proof.
  unfold process_query, summarize, update_current_url.
  exec_paths; simpl; repeat (rewrite <- app_assoc; simpl);
    eexists; reflexivity.
Qed.

(** X5.  The narration log only grows.  [start_session] and [process_query]
    append to it, and the first entry a query appends is its text;
    [stop_session] leaves it as it is; [_update_current_url] appends the
    one entry that names the URL. *)
Theorem steps_append_only :
  (forall bb c, steps c `prefix_of` steps (snd (start_session bb c))) /\
  (forall env query c,
      exists rest,
        steps (snd (process_query env query c))
        = steps c ++ ("Processing query: " +:+ query) :: rest) /\
  (forall bb c, steps (snd (stop_session bb c)) = steps c) /\
  (forall url c,
      steps (snd (_update_current_url url c)) = steps c ++ ["Now at: " +:+ url]).
Proof.
  split; [|split; [|split]].
  - intros bb c. unfold start_session, start_new, start_reuse.
    exec_paths; simpl; repeat (rewrite <- app_assoc; simpl);
      first [reflexivity | eexists; reflexivity].
  - apply process_query_steps.
  - intros bb c. unfold stop_session, clear_identity.
    exec_paths; reflexivity.
  - intros url c. reflexivity.
Qed.

(** ** Invariants of the session table *)

Section KeyedTableInvariant.
Variable P : string -> BrowserController -> Prop.
Hypothesis P_started : forall bb uid sid url live c,
  start_session bb (init uid) = (Ok (Connected sid url live), c) -> P uid c.
Hypothesis P_query : forall env query uid c,
  P uid c -> P uid (snd (process_query env query c)).
Hypothesis P_streaming : forall uid c, P uid c -> P uid (set_streaming false c).

Lemma handle_keyed_invariant (r : main.request)
    (t : gmap string BrowserController) :
  map_Forall P t -> map_Forall P (main.handle r t).
Proof.
  intros Ht. destruct r as [bb uid|env uid query|bb uid|uid attach ticks|bb];
    simpl.
  - unfold main.start_browser.
    destruct (t !! uid) as [c|] eqn:Hc; [exact Ht|].
    destruct (start_session bb (init uid)) as [[[sid url live|e]|e] c] eqn:Hs;
      simpl.
    + apply map_Forall_insert_2; [|exact Ht]. eapply P_started, Hs.
    + rewrite delete_insert_eq. apply map_Forall_delete. exact Ht.
    + destruct (start_session_returns bb (init uid)) as [r' Hr].
      rewrite Hs in Hr. discriminate.
  - unfold main.process_query.
    destruct (t !! uid) as [c|] eqn:Hc; [|exact Ht].
    pose proof (P_query env query uid c (Ht _ _ Hc)) as Hq.
    destruct (process_query env query c) as [r c'].
    assert (map_Forall P (<[uid := c']> t))
      by (apply map_Forall_insert_2; assumption).
    destruct r as [[| |]|]; assumption.
  - rewrite stop_browser_result.
    destruct (t !! uid); simpl; [apply map_Forall_delete|]; exact Ht.
  - unfold main.websocket_endpoint.
    destruct (t !! uid) as [c|] eqn:Hc; [|exact Ht]. simpl.
    apply map_Forall_insert_2; [|exact Ht]. apply P_streaming. eauto.
  - apply map_Forall_empty.
Qed.

Lemma serve_keyed_invariant (requests : list main.request) :
  map_Forall P (main.serve requests).
Proof.
  unfold main.serve.
  induction requests as [|r requests IH] using rev_ind.
  - apply map_Forall_empty.
  - rewrite foldl_snoc. apply handle_keyed_invariant. exact IH.
Qed.
End KeyedTableInvariant.

Lemma start_session_fresh (bb : Browserbase) (uid : string)
    (c : BrowserController) sid url live :
  start_session bb (init uid) = (Ok (Connected sid url live), c) ->
  user_id c = uid /\ history c = [] /\ streaming c = false /\
  current_url c = Some "https://www.google.com" /\
  exists how, is_start_entry how = true /\
              steps c = [how; "Starting with https://www.google.com"].
Proof.
  unfold start_session, start_new, start_reuse. intros H.
  exec_paths; simplify_eq; simpl; repeat split;
    eexists; (split; [|reflexivity]); reflexivity.
Qed.

(** X6.  Whatever requests were served, the session table is keyed by the
    controllers' own [user_id], and the narration log of every Session in
    it begins with the entry that says how the session was established
    (created or reused) followed by the landing page. *)
Theorem session_table_well_formed (requests : list main.request)
    (uid : string) (c : BrowserController) :
  main.serve requests !! uid = Some c ->
  user_id c = uid /\
  exists how rest,
    is_start_entry how = true /\
    steps c = how :: "Starting with https://www.google.com" :: rest.
Proof.
  intros Hc.
  refine (serve_keyed_invariant
            (fun uid c =>
               user_id c = uid /\
               exists how rest,
                 is_start_entry how = true /\
                 steps c = how :: "Starting with https://www.google.com" :: rest)
            _ _ _ requests uid c Hc).
  - intros bb u sid url live c0 Hs.
    apply start_session_fresh in Hs as (Hu & _ & _ & _ & how & Hhow & Hst).
    split; [exact Hu|]. exists how, []. auto.
  - intros env query u c0 [Hu (how & rest & Hhow & Hst)].
    destruct (process_query_frame env query c0) as (-> & _).
    split; [exact Hu|].
    destruct (process_query_steps env query c0) as [more ->]. rewrite Hst.
    exists how, (rest ++ ("Processing query: " +:+ query) :: more). auto.
  - intros u c0 H. exact H.
Qed.

Lemma session_table_well_formed_witness :
  user_id alice = "alice" /\
  exists how rest,
    is_start_entry how = true /\
    steps alice = how :: "Starting with https://www.google.com" :: rest.
Proof.
  apply (session_table_well_formed [main.Start granting "alice"] "alice" alice).
  reflexivity.
Defined.

(** ** history and current_url *)

Lemma history_append_drop (url : string) (h : list string) :
  history_append url h = drop (length (h ++ [url]) - 10) (h ++ [url]).
Proof.
  unfold history_append.
  destruct (Nat.ltb_spec 10 (length (h ++ [url]))) as [H|H]; [reflexivity|].
  replace (length (h ++ [url]) - 10) with 0 by lia. reflexivity.
Qed.

Lemma history_append_last (url : string) (h : list string) :
  last (history_append url h) = Some url.
Proof.
  rewrite history_append_drop, length_app. simpl.
  rewrite drop_app_le by lia. apply last_snoc.
Qed.

(** The last ten of a list stay the last ten when the list goes on. *)
Lemma last_ten_app (l k : list string) :
  drop (length (drop (length l - 10) l ++ k) - 10) (drop (length l - 10) l ++ k)
  = drop (length (l ++ k) - 10) (l ++ k).
Proof.
  rewrite <- (drop_app_le l k) by lia.
  rewrite drop_drop, length_drop, !length_app.
  f_equal. lia.
Qed.

(** A query changes [history] and [current_url] together or not at all. *)
Lemma process_query_url_history (env : query_env) (query : string)
    (c : BrowserController) :
  let c' := snd (process_query env query c) in
  (history c' = history c /\ current_url c' = current_url c) \/
  (exists url, url <> "" /\ history c' = history_append url (history c)
               /\ current_url c' = Some url).
Proof.
  unfold process_query, summarize, update_current_url.
  exec_paths; auto;
    right; eexists; (split; [|split; reflexivity]);
    match goal with
    | H : negb (?u =? "")%string = true |- _ =>
        destruct (String.eqb_spec u ""); [discriminate | assumption]
    end.
Qed.

Lemma process_query_lands (env : query_env) (query url : string)
    (c : BrowserController) :
  is_Some (connection_url c) -> lands_on env url ->
  history (snd (process_query env query c)) = history_append url (history c).
Proof.
  intros [x Hx] (H1 & H2 & H3 & H4 & H5 & H6).
  destruct (agent_run env) as [result|e] eqn:Hrun; [|discriminate].
  destruct (String.eqb_spec url "") as [|_]; [contradiction|].
  unfold process_query, summarize, update_current_url. exec_unfold. simpl.
  rewrite H1, Hx, H2, Hrun, H4, H5. simpl.
  destruct (String.eqb_spec url "") as [|_]; [contradiction|].
  exec_paths; reflexivity.
Qed.

(** X7.  [history] is the ring the code means it to be: after a series of
    queries that each ended on a page, it holds the last ten of the pages it
    held before followed by the pages visited, in the order of the visits. *)
Theorem history_is_last_ten_visited (queries : list (query_env * string))
    (urls : list string) (c : BrowserController) :
  is_Some (connection_url c) ->
  length (history c) <= 10 ->
  Forall2 (fun q url => lands_on q.1 url) queries urls ->
  history (process_queries queries c)
  = drop (length (history c ++ urls) - 10) (history c ++ urls).
Proof.
  intros Hurl Hlen Hall. revert c Hurl Hlen.
  induction Hall as [|[env query] url queries urls Hq _ IH]; intros c Hurl Hlen.
  - simpl. rewrite app_nil_r.
    replace (length (history c) - 10) with 0 by lia. reflexivity.
  - simpl. rewrite IH.
    + rewrite (process_query_lands env query url c Hurl Hq).
      rewrite history_append_drop, last_ten_app, <- app_assoc. reflexivity.
    + destruct (process_query_frame env query c) as (_ & _ & _ & -> & _).
      exact Hurl.
    + apply process_query_history_bound. exact Hlen.
Qed.

Lemma history_is_last_ten_visited_witness :
  history alice_after_ten = ten_urls.
Proof.
  apply (history_is_last_ten_visited
           ((fun url => (answering url, "next page")) <$> ten_urls)
           ten_urls alice).
  - eexists. reflexivity.
  - simpl. lia.
  - repeat constructor; discriminate.
Defined.

(** X8.  In every Session of the session table, whatever requests were served,
    [current_url] is the most recent entry of [history], or the landing
    page while [history] is empty. *)
Theorem current_url_tracks_history (requests : list main.request)
    (uid : string) (c : BrowserController) :
  main.serve requests !! uid = Some c ->
  current_url c
  = Some (match last (history c) with
          | Some url => url
          | None => "https://www.google.com"
          end).
Proof.
  intros Hc.
  refine (serve_invariant
            (fun c => current_url c
                      = Some (match last (history c) with
                              | Some url => url
                              | None => "https://www.google.com"
                              end))
            _ _ _ requests uid c Hc).
  - intros bb u sid url live c0 Hs.
    apply start_session_fresh in Hs as (_ & -> & _ & -> & _). reflexivity.
  - intros env query c0 H.
    destruct (process_query_url_history env query c0)
      as [[-> ->]|(url & _ & -> & ->)]; [exact H|].
    rewrite history_append_last. reflexivity.
  - intros c0 H. exact H.
Qed.

Lemma current_url_tracks_history_witness :
  current_url (snd (process_query (answering "https://a.example/1")
                      "next page" alice))
  = Some "https://a.example/1".
Proof.
  apply (current_url_tracks_history
           [main.Start granting "alice";
            main.Query (answering "https://a.example/1") "alice" "next page"]
           "alice").
  vm_compute. reflexivity.
Defined.

(** ** Failures of the provider on start *)

(** X9.  When the provider refuses to create the session for another reason
    than the concurrency limit, [start_session] returns the provider's text
    as an error and leaves the controller as it was; [start_browser]
    answers with an HTTP 500 carrying that text and keeps no Session. *)
Theorem start_failure_surfaced (bb : Browserbase) (uid e : string)
    (c : BrowserController) (t : gmap string BrowserController) :
  sessions_create bb = Raise e ->
  contains "You've exceeded your max concurrent sessions limit" e = false ->
  start_session bb c = (Ok (StartError e), c) /\
  (t !! uid = None ->
   main.start_browser bb uid t = (main.StartHTTPException 500 e, t)).
Proof.
  intros Hcreate Hlimit.
  assert (Hs : forall c0, start_session bb c0 = (Ok (StartError e), c0)).
  { intros c0. unfold start_session, start_new, start_reuse, limit_message.
    exec_unfold. rewrite Hcreate, Hlimit. reflexivity. }
  split; [apply Hs|].
  intros Hnone. unfold main.start_browser. rewrite Hnone, Hs.
  rewrite delete_insert_eq, delete_id by exact Hnone. reflexivity.
Qed.

Lemma start_failure_surfaced_witness :
  start_session refusing (init "bob")
  = (Ok (StartError "401 Unauthorized"), init "bob") /\
  main.start_browser refusing "bob" {[ "alice" := alice ]}
  = (main.StartHTTPException 500 "401 Unauthorized", {[ "alice" := alice ]}).
Proof.
  destruct (start_failure_surfaced refusing "bob" "401 Unauthorized"
              (init "bob") {[ "alice" := alice ]} eq_refl eq_refl) as [H1 H2].
  split; [exact H1|]. apply H2. apply lookup_singleton_ne. discriminate.
Defined.

(** X10.  When the fallback of the concurrency limit fails itself, the error
    returned is that of the call that failed, not the concurrency-limit
    message: listing the sessions, retrieving the first one, or fetching its
    debug links.  In the first two cases the controller is as it was; in the
    third it has taken the retrieved session and its identifier but no
    connection URL. *)
Theorem fallback_failure_surfaced (bb : Browserbase) (c : BrowserController)
    (e e' : string) :
  sessions_create bb = Raise e ->
  contains "You've exceeded your max concurrent sessions limit" e = true ->
  (sessions_list bb = Raise e' ->
   start_session bb c = (Ok (StartError e'), c)) /\
  (forall first rest,
      sessions_list bb = Ok (first :: rest) ->
      sessions_retrieve bb (id first) = Raise e' ->
      start_session bb c = (Ok (StartError e'), c)) /\
  (forall first rest full,
      sessions_list bb = Ok (first :: rest) ->
      sessions_retrieve bb (id first) = Ok full ->
      sessions_debug bb (id full) = Raise e' ->
      start_session bb c
      = (Ok (StartError e'),
         set_session_id (Some (id full)) (set_session (Some full) c))).
Proof.
  intros Hcreate Hlimit.
  split; [|split].
  - intros Hlist. unfold start_session, start_new, start_reuse, limit_message.
    exec_unfold. rewrite Hcreate, Hlimit, Hlist. reflexivity.
  - intros first rest Hlist Hretrieve.
    unfold start_session, start_new, start_reuse, limit_message.
    exec_unfold. rewrite Hcreate, Hlimit, Hlist, Hretrieve. reflexivity.
  - intros first rest full Hlist Hretrieve Hdebug.
    unfold start_session, start_new, start_reuse, limit_message.
    exec_unfold. rewrite Hcreate, Hlimit, Hlist, Hretrieve. simpl.
    rewrite Hdebug. reflexivity.
Qed.

Lemma fallback_failure_surfaced_witness :
  start_session at_limit_stale (init "alice")
  = (Ok (StartError "Session not found"), init "alice").
Proof.
  destruct (fallback_failure_surfaced at_limit_stale (init "alice")
              "Error code: 429 - You've exceeded your max concurrent sessions limit (limit 1)"
              "Session not found" eq_refl eq_refl) as (_ & H & _).
  apply (H {| id := "sess-7"; connect_url := "" |} []); reflexivity.
Defined.

(** ** The answer of a query *)

(** X11.  When the agent run returns and the browser closes, the query succeeds
    whatever the summariser does, unless the second extraction path reads a
    missing attribute.  The answer is, sanitized: the summariser's
    [content] (or its string form when it has none); the first direct
    extraction when the summariser call raises; the second direct
    extraction when the summary request cannot be built.  When that
    extraction raises, the result is a partial success quoting its error. *)
Theorem answer_by_summary_outcome (env : query_env) (query : string)
    (c : BrowserController) (result : agent_history) :
  is_Some (connection_url c) ->
  new_llms env = Ok tt -> new_agent env = Ok tt ->
  agent_run env = Ok result -> browser_close env = Ok tt ->
  (forall message,
      new_summary_message env = Ok tt -> summary_invoke env = Ok message ->
      exists url steps,
        fst (process_query env query c)
        = Ok (Success
                (sanitize query
                   (getattr (content message) (VStr (message_str message))))
                url steps)) /\
  (forall e,
      new_summary_message env = Ok tt -> summary_invoke env = Raise e ->
      exists url steps,
        fst (process_query env query c)
        = Ok (Success (sanitize query (extract_after_sync_error result))
                url steps)) /\
  (forall e v,
      new_summary_message env = Raise e ->
      extract_after_summary_error query result = Ok v ->
      exists url steps,
        fst (process_query env query c)
        = Ok (Success (sanitize query v) url steps)) /\
  (forall e e',
      new_summary_message env = Raise e ->
      extract_after_summary_error query result = Raise e' ->
      exists url steps,
        fst (process_query env query c)
        = Ok (PartialSuccess (browser_apology e') url steps)).
Proof.
  intros [x Hx] Hllm Hagent Hrun Hclose.
  split; [|split; [|split]].
  - intros message H1 H2.
    unfold process_query, summarize, update_current_url. exec_unfold. simpl.
    rewrite Hllm, Hx, Hagent, Hrun, H1, H2, Hclose. simpl.
    exec_paths; eauto.
  - intros e H1 H2.
    unfold process_query, summarize, update_current_url. exec_unfold. simpl.
    rewrite Hllm, Hx, Hagent, Hrun, H1, H2, Hclose. simpl.
    exec_paths; eauto.
  - intros e v H1 H2.
    unfold process_query, summarize, update_current_url. exec_unfold. simpl.
    rewrite Hllm, Hx, Hagent, Hrun, H1, H2, Hclose. simpl.
    exec_paths; eauto.
  - intros e e' H1 H2.
    unfold process_query, summarize, update_current_url. exec_unfold. simpl.
    rewrite Hllm, Hx, Hagent, Hrun, H1, H2. simpl. eauto.
Qed.

Lemma answer_by_summary_outcome_witness :
  exists url steps,
    fst (process_query (summariser_down "12 degrees") "weather" alice)
    = Ok (Success (VStr "12 degrees") url steps).
Proof.
  destruct (answer_by_summary_outcome (summariser_down "12 degrees") "weather"
              alice
              {| all_results :=
                   Some [ {| is_done := Some (VBool true);
                             success := Some (VBool true);
                             extracted_content := Some (VStr "12 degrees") |} ] |})
    as (_ & H & _).
  - eexists. reflexivity.
  - reflexivity.
  - reflexivity.
  - reflexivity.
  - reflexivity.
  - apply (H "Connection error."); reflexivity.
Defined.

(** X12.  When closing the browser raises after the run and the summary went
    through, the answer already computed is dropped: the result is a
    partial success quoting the error.  The page the browser ended on has
    nevertheless become [current_url] and the newest entry of [history],
    and the log records both the completion and the error. *)
Theorem close_failure_after_success (env : query_env) (query url e : string)
    (c : BrowserController) (result : agent_history) :
  is_Some (connection_url c) ->
  new_llms env = Ok tt -> new_agent env = Ok tt ->
  agent_run env = Ok result -> new_summary_message env = Ok tt ->
  browser_current_url env = Some url -> url <> "" ->
  browser_close env = Raise e ->
  exists c',
    process_query env query c
    = (Ok (PartialSuccess (browser_apology e) (Some url) (steps c')), c') /\
    current_url c' = Some url /\
    history c' = history_append url (history c) /\
    steps c' = steps c ++ ["Processing query: " +:+ query;
                           "Browser agent initialized"; "Executing query...";
                           "Query execution completed";
                           "Navigated to " +:+ url;
                           "Browser error: " +:+ e].
Proof.
  intros [x Hx] Hllm Hagent Hrun Hsum Hurl Hne Hclose.
  unfold process_query, summarize, update_current_url. exec_unfold. simpl.
  rewrite Hllm, Hx, Hagent, Hrun, Hsum, Hurl, Hclose. simpl.
  destruct (String.eqb_spec url "") as [|_]; [contradiction|]. simpl.
  destruct (summary_invoke env); simpl;
    match goal with
    | |- exists c', (_, ?final) = _ /\ _ => exists final
    end;
    (split; [reflexivity|]); simpl;
    repeat (rewrite <- app_assoc; simpl); auto.
Qed.

Lemma close_failure_after_success_witness :
  exists c',
    process_query (close_fails "https://a.example/1") "weather" alice
    = (Ok (PartialSuccess
             "I encountered an issue while trying to browse the web: Target closed. I'm unable to access web content for this query right now."
             (Some "https://a.example/1") (steps c')), c') /\
    history c' = ["https://a.example/1"].
Proof.
  destruct (close_failure_after_success (close_fails "https://a.example/1")
              "weather" "https://a.example/1" "Target closed" alice
              {| all_results := Some [] |})
    as (c' & H & _ & Hh & _).
  - eexists. reflexivity.
  - reflexivity.
  - reflexivity.
  - reflexivity.
  - reflexivity.
  - reflexivity.
  - discriminate.
  - reflexivity.
  - exists c'. split; [exact H | exact Hh].
Defined.

(** ** Stopping twice, sanitizing twice *)

(** X13.  [stop_session] is idempotent: a second stop returns and leaves
    the controller exactly as the first stop left it, whatever the
    provider answers to either of them. *)
Theorem stop_session_idempotent (bb bb' : Browserbase) (c : BrowserController) :
  stop_session bb' (snd (stop_session bb c)) = (Ok tt, snd (stop_session bb c)).
Proof.
  destruct (decide (session_id c = Some "")) as [Hempty|Hne].
  - assert (Hnoop : forall b, stop_session b c = (Ok tt, c)).
    { intros b. unfold stop_session. exec_unfold. rewrite Hempty. reflexivity. }
    rewrite !Hnoop. reflexivity.
  - destruct (stop_session_fields bb c) as [_ Hid]. specialize (Hid Hne).
    unfold stop_session at 1. exec_unfold. rewrite Hid. reflexivity.
Qed.

(** X14.  Sanitizing is idempotent: an answer that went through [sanitize] is
    left as it is by a second pass. *)
Theorem sanitize_idempotent (query : string) (v : pyval) :
  sanitize query (sanitize query v) = sanitize query v.
Proof.
  destruct (sanitize_text query v) as (s & -> & Hne & Hs).
  simpl. rewrite Hs.
  destruct (String.eqb_spec s ""); [contradiction | reflexivity].
Qed.

(** ** The two direct extractions *)

Lemma policy_selects_from_trace (trace : list action) :
  trace <> [] ->
  exists a, a ∈ trace /\ policy {| all_results := Some trace |} = ContentOf a.
Proof.
  intros Hne. unfold policy. simpl.
  destruct (last (List.filter _ trace)) as [a|] eqn:E.
  - exists a. split; [|reflexivity].
    apply last_Some_elem_of in E. apply list_elem_of_In in E.
    apply List.filter_In in E as [E _]. apply list_elem_of_In. exact E.
  - destruct (last trace) as [a|] eqn:E'.
    + exists a. split; [|reflexivity]. apply last_Some_elem_of. exact E'.
    + apply last_None in E'. contradiction.
Qed.

(** X15.  The two direct-extraction paths return the same answer on every
    non-empty trace in which each action marked done says whether it
    succeeded and each action carries an [extracted_content]. *)
Theorem fallback_paths_agree (query : string) (trace : list action) :
  trace <> [] ->
  explicit_success trace = true ->
  Forall (fun a => is_Some (extracted_content a)) trace ->
  extract_after_summary_error query {| all_results := Some trace |}
  = Ok (extract_after_sync_error {| all_results := Some trace |}).
Proof.
  intros Hne Hexp Hcontent.
  rewrite (summary_error_path_follows_policy query
             {| all_results := Some trace |} trace eq_refl Hne).
  rewrite (sync_error_path_follows_policy
             {| all_results := Some trace |} trace eq_refl Hne Hexp).
  destruct (policy_selects_from_trace trace Hne) as (a & Ha & ->).
  rewrite Forall_forall in Hcontent.
  destruct (Hcontent a Ha) as [v Hv].
  unfold selected, selected_or_empty, dot_extracted_content.
  rewrite Hv. reflexivity.
Qed.

Lemma fallback_paths_agree_witness :
  extract_after_summary_error "weather"
    {| all_results :=
         Some [ {| is_done := Some (VBool true); success := Some (VBool false);
                   extracted_content := Some (VStr "b") |};
                {| is_done := Some (VBool false); success := None;
                   extracted_content := Some VNone |} ] |}
  = Ok VNone.
Proof.
  rewrite fallback_paths_agree.
  - reflexivity.
  - discriminate.
  - reflexivity.
  - repeat constructor; eexists; reflexivity.
Defined.

(** ** The relay at its edges *)

(** X16.  A push that raises on attach ends the relay before its first pass:
    the listener has received the attach messages pushed before the failure
    and receives nothing else, whatever happens to the Session later. *)
Theorem attach_failure_ends_relay (attach : observation)
    (ticks : list observation) (e : string) :
  let status := StatusMsg "connected" (session_id (self_now attach)) in
  let url := UrlMsg (url_or_blank (current_url (self_now attach))) in
  let log := StepsMsg (steps (self_now attach)) in
  (websocket attach status = Raise e -> stream_browser attach ticks = []) /\
  (websocket attach status = Ok tt -> websocket attach url = Raise e ->
   stream_browser attach ticks = [status]) /\
  (websocket attach status = Ok tt -> websocket attach url = Ok tt ->
   websocket attach log = Raise e ->
   stream_browser attach ticks = [status; url]).
Proof.
  cbv zeta. unfold stream_browser, stream_attach, send_json. exec_unfold.
  split; [|split].
  - intros ->. reflexivity.
  - intros -> ->. reflexivity.
  - intros -> -> ->. reflexivity.
Qed.

Lemma attach_failure_ends_relay_witness :
  stream_browser (disconnected alice)
    [watching alice; watching alice_after_failure] = [].
Proof.
  destruct (attach_failure_ends_relay (disconnected alice)
              [watching alice; watching alice_after_failure]
              "WebSocket is not connected") as (H & _).
  apply H. reflexivity.
Defined.

Lemma stream_loop_released (before after : list observation) (o : observation)
    (n : nat) (sent : list ws_message) :
  streaming (self_now o) = false ->
  stream_loop (before ++ o :: after) n sent = stream_loop before n sent.
Proof.
  intros Hoff. revert n sent.
  induction before as [|b before IH]; intros n sent; simpl.
  - rewrite Hoff. reflexivity.
  - destruct (streaming (self_now b)); [|reflexivity].
    unfold mbind, Exec_bind.
    destruct (stream_tick b n sent) as [[n'|e] sent']; [apply IH | reflexivity].
Qed.

(** X17.  The relay stops at the first pass that finds the streaming flag
    cleared: what the listener receives is what it had received by then,
    whatever the Session does afterwards. *)
Theorem relay_stops_when_released (attach o : observation)
    (before after : list observation) :
  streaming (self_now o) = false ->
  stream_browser attach (before ++ o :: after) = stream_browser attach before.
Proof.
  intros Hoff. unfold stream_browser, try_except, mbind, Exec_bind.
  destruct (stream_attach attach []) as [[n|e] sent]; [|reflexivity].
  rewrite (stream_loop_released before after o n sent Hoff). reflexivity.
Qed.

Lemma relay_stops_when_released_witness :
  stream_browser (watching alice)
    ([watching alice] ++ released alice :: [watching alice_after_failure])
  = stream_browser (watching alice) [watching alice].
Proof.
  apply (relay_stops_when_released (watching alice) (released alice)
           [watching alice] [watching alice_after_failure]).
  reflexivity.
Defined.

Lemma url_or_blank_not_empty (url : option string) :
  negb (url_or_blank url =? "")%string = true.
Proof.
  unfold url_or_blank. destruct url as [u|]; [|reflexivity].
  destruct (negb (u =? "")%string) eqn:E; [exact E | reflexivity].
Qed.

Lemma stream_tick_well_formed (o : observation) (n : nat)
    (sent : list ws_message) :
  forallb well_formed sent = true ->
  forallb well_formed (snd (stream_tick o n sent)) = true.
Proof.
  intros H. pose proof (url_or_blank_not_empty (current_url (self_now o))) as Hu.
  unfold stream_tick, send_json.
  exec_paths; simpl; rewrite ?forallb_app, ?H; simpl; rewrite ?Hu;
    try reflexivity;
    match goal with
    | E : negb (?x =? "")%string = true |- _ => rewrite E
    end; reflexivity.
Qed.

Lemma stream_loop_well_formed (ticks : list observation) (n : nat)
    (sent : list ws_message) :
  forallb well_formed sent = true ->
  forallb well_formed (snd (stream_loop ticks n sent)) = true.
Proof.
  revert n sent. induction ticks as [|o ticks IH]; intros n sent H; [exact H|].
  simpl. destruct (streaming (self_now o)); [|exact H].
  unfold mbind, Exec_bind.
  pose proof (stream_tick_well_formed o n sent H) as Ht.
  destruct (stream_tick o n sent) as [[n'|e] sent']; [apply IH|]; exact Ht.
Qed.

(** X18.  Whatever the Session holds and whatever the websocket does, every
    message the relay gets through is well formed: the status is
    ["connected"], a current URL or live-view URL is never empty (an unset
    current URL goes out as [about:blank], an unknown live-view URL is not
    sent), and the relay itself sends no error message. *)
Theorem relay_messages_well_formed (attach : observation)
    (ticks : list observation) :
  forallb well_formed (stream_browser attach ticks) = true.
Proof.
  pose proof (url_or_blank_not_empty (current_url (self_now attach))) as Hu.
  unfold stream_browser, try_except, mbind, Exec_bind.
  assert (Ha : forallb well_formed (snd (stream_attach attach [])) = true).
  { unfold stream_attach, send_json.
    exec_paths; simpl; rewrite ?Hu; reflexivity. }
  destruct (stream_attach attach []) as [[n|e] sent]; [|exact Ha].
  pose proof (stream_loop_well_formed ticks n sent Ha) as Hl.
  destruct (stream_loop ticks n sent) as [[u|e] sent']; exact Hl.
Qed.

(** ** A fresh session, and what a query keeps *)

(** X19.  A start request that succeeds always leaves a brand-new Session in the
    table: on the landing page, with an empty [history], not streaming, and
    with the two entries of its establishment as its whole narration log.
    Nothing of an earlier Session of the same user survives a stop and a
    new start. *)
Theorem start_browser_fresh_session (bb : Browserbase) (uid : string)
    (t : gmap string BrowserController) (sid url : string) :
  fst (main.start_browser bb uid t) = main.SessionStarted sid url ->
  url = "https://www.google.com" /\
  exists c,
    snd (main.start_browser bb uid t) !! uid = Some c /\
    session_id c = Some sid /\ current_url c = Some url /\
    history c = [] /\ streaming c = false /\ length (steps c) = 2.
Proof.
  unfold main.start_browser.
  destruct (t !! uid) as [c|] eqn:Hc; [discriminate|].
  destruct (start_session bb (init uid)) as [r c] eqn:Hs.
  destruct r as [[sid' url' live|e]|e]; simpl; try discriminate.
  intros [= -> ->].
  pose proof (start_session_connected _ _ _ _ _ _ Hs) as (Hid & _ & Hcur & _).
  apply start_session_fresh in Hs as (_ & Hh & Hstr & Hg & how & _ & Hst).
  split; [congruence|].
  exists c. rewrite lookup_insert_eq, Hst. auto 10.
Qed.

Lemma start_browser_fresh_session_witness :
  exists c,
    snd (main.start_browser at_limit "alice"
           (snd (main.stop_browser granting "alice" {[ "alice" := alice_after_ten ]})))
    !! "alice" = Some c /\
    session_id c = Some "sess-7" /\
    current_url c = Some "https://www.google.com" /\
    history c = [] /\ streaming c = false /\ length (steps c) = 2.
Proof.
  destruct (start_browser_fresh_session at_limit "alice"
              (snd (main.stop_browser granting "alice"
                      {[ "alice" := alice_after_ten ]}))
              "sess-7" "https://www.google.com") as [_ H].
  - vm_compute. reflexivity.
  - exact H.
Defined.

(** X20.  A query never rebinds the Session: whatever its outcome, the Session
    stays in the table under the same user with the same session
    identifier, remote session, connection URL and debug links, and with
    its streaming flag as it was. *)
Theorem query_keeps_session (env : query_env) (uid query : string)
    (t : gmap string BrowserController) (c : BrowserController) :
  t !! uid = Some c ->
  exists c',
    snd (main.process_query env uid query t) = <[uid := c']> t /\
    user_id c' = user_id c /\ session_id c' = session_id c /\
    session c' = session c /\ connection_url c' = connection_url c /\
    debug_links c' = debug_links c /\ streaming c' = streaming c.
Proof.
  intros Hc. unfold main.process_query. rewrite Hc.
  pose proof (process_query_frame env query c) as H.
  destruct (process_query env query c) as [r c']. simpl in H.
  exists c'. split; [|exact H].
  destruct r as [[| |]|]; reflexivity.
Qed.

Lemma query_keeps_session_witness :
  exists c',
    snd (main.process_query agent_down "alice" "weather" {[ "alice" := alice ]})
    = <["alice" := c']> {[ "alice" := alice ]} /\
    session_id c' = Some "sess-1" /\
    connection_url c' = Some "wss://connect/sess-1".
Proof.
  destruct (query_keeps_session agent_down "alice" "weather"
              {[ "alice" := alice ]} alice)
    as (c' & Ht & _ & Hid & _ & Hurl & _).
  - apply lookup_singleton_eq.
  - exists c'. split; [exact Ht|]. split; [exact Hid | exact Hurl].
Defined.
